(** * signal_bot.py: a shallow embedding and its checked properties

    The bot relays Signal messages to a chat-completion HTTP API and keeps a
    rolling conversation history per sender.  Python values decoded from JSON
    are a small inductive type, the effects of the program (the
    [conversations] dictionary, the replies sent, the HTTP requests issued,
    the log) are threaded through a state-and-exception monad, and the remote
    service is an oracle from requests to outcomes. *)

From stdpp Require Import base strings list gmap pretty.
From Stdlib Require Import Ascii ZArith Lia.
From Stdlib Require QArith.

Local Open Scope string_scope.
Local Open Scope list_scope.
Local Open Scope nat_scope.

(** ** Python values and exceptions *)

(** Values produced by [response.json()].  JSON numbers are kept as integers:
    no path of the program inspects a number, and a float behaves like an
    integer under every operation used here (not subscriptable, not
    iterable). *)
#[warnings="-register-all"]
Inductive json : Type :=
| JNull
| JBool (b : bool)
| JNum (z : Z)
| JStr (s : string)
| JArr (items : list json)
| JObj (fields : list (string * json)).

(** The exceptions that can reach an [except Exception] clause of the
    program, all of them subclasses of [Exception].  [ClientError] stands for
    whatever the HTTP library raises (connection failure, timeout,
    undecodable body).  Cancellation of the task is not an [Exception] and
    is not modelled. *)
Inductive exn : Type :=
| ClientError (detail : string)
| KeyError (key : json)
| IndexError
| TypeError
| AttributeError.

Inductive outcome (A : Type) : Type :=
| Ret (a : A)
| Raise (e : exn).
Arguments Ret {A} a.
Arguments Raise {A} e.

Definition outcome_bind {A B} (o : outcome A) (f : A -> outcome B) : outcome B :=
  match o with
  | Ret a => f a
  | Raise e => Raise e
  end.

#[global] Instance outcome_ret : MRet outcome := @Ret.
#[global] Instance outcome_mbind : MBind outcome := λ A B f o, outcome_bind o f.

(** What [str(e)] and [repr(v)] print is the interpreter's business; the
    program only embeds the text.  [py_repr] is consulted for containers
    only, see [format_value]. *)
Class PyRuntime : Type := {
  str_exn : exn -> string;
  py_repr : json -> string
}.

(** [d[k]] on an already decoded JSON object. *)
Fixpoint assoc (k : string) (fields : list (string * json)) : option json :=
  match fields with
  | [] => None
  | (k', v) :: rest => if String.eqb k k' then Some v else assoc k rest
  end.

(** [v[k]] with a string subscript. *)
Definition py_getitem_str (v : json) (k : string) : outcome json :=
  match v with
  | JObj fields =>
      match assoc k fields with
      | Some x => Ret x
      | None => Raise (KeyError (JStr k))
      end
  | _ => Raise TypeError
  end.

Fixpoint chars (s : string) : list json :=
  match s with
  | EmptyString => []
  | String a rest => JStr (String a EmptyString) :: chars rest
  end.

(** [v[i]] with a non-negative integer subscript. *)
Definition py_getitem_nat (v : json) (i : nat) : outcome json :=
  match v with
  | JArr items =>
      match items !! i with
      | Some x => Ret x
      | None => Raise IndexError
      end
  | JStr s =>
      match chars s !! i with
      | Some x => Ret x
      | None => Raise IndexError
      end
  | JObj _ => Raise (KeyError (JNum (Z.of_nat i)))
  | _ => Raise TypeError
  end.

(** [v.get(k, default)]: only a dict has the method. *)
Definition py_dict_get (v : json) (k : string) (default : json) : outcome json :=
  match v with
  | JObj fields =>
      match assoc k fields with
      | Some x => Ret x
      | None => Ret default
      end
  | _ => Raise AttributeError
  end.

(** The elements a [for] loop sees. *)
Definition py_iter (v : json) : outcome (list json) :=
  match v with
  | JArr items => Ret items
  | JObj fields => Ret (map (λ kv, JStr (fst kv)) fields)
  | JStr s => Ret (chars s)
  | _ => Raise TypeError
  end.

(** [[f(x) for x in l]]: left to right, the first exception aborts. *)
Fixpoint comprehension {A B} (f : A -> outcome B) (l : list A) : outcome (list B) :=
  match l with
  | [] => Ret []
  | x :: rest =>
      match f x with
      | Ret y =>
          match comprehension f rest with
          | Ret ys => Ret (y :: ys)
          | Raise e => Raise e
          end
      | Raise e => Raise e
      end
  end.

(** Truthiness of an optional string: [None] and [""] are falsy. *)
Definition truthy (s : option string) : bool :=
  match s with
  | Some (String _ _) => true
  | _ => false
  end.

(** [f"{v}"] *)
Definition format_value `{PyRuntime} (v : json) : string :=
  match v with
  | JStr s => s
  | JNull => "None"
  | JBool true => "True"
  | JBool false => "False"
  | JNum z => pretty z
  | _ => py_repr v
  end.

Definition format_text (s : option string) : string :=
  match s with
  | Some s => s
  | None => "None"
  end.

(** [s.rstrip(c)] for a single character [c]. *)
Fixpoint rstrip (c : ascii) (s : string) : string :=
  match s with
  | EmptyString => EmptyString
  | String a rest =>
      match rstrip c rest with
      | EmptyString => if Ascii.eqb a c then EmptyString else String a EmptyString
      | r => String a r
      end
  end.

(** ** Data of the program *)

(** A chat turn, [{"role": ..., "content": ...}]. *)
Record turn : Type := Turn { role : string; content : json }.

(** The JSON body of a completion request. *)
Record payload : Type := Payload {
  payload_model : json;
  payload_messages : list turn;
  payload_temperature : QArith_base.Q;
  payload_max_tokens : Z
}.

Inductive http_method : Type := GET | POST.

Record request : Type := Request {
  method : http_method;
  url : string;
  req_headers : list (string * string);
  body : option payload
}.

(** What the program can observe of a response: the status, and what
    [response.json()] and [response.text()] give when awaited. *)
Record response : Type := Response {
  status : Z;
  json_body : outcome json;
  text_body : outcome string
}.

(** The remote service and the network between: each request either raises
    or yields a response. *)
Definition world : Type := request -> outcome response.

Record message : Type := Message { text : option string; source : string }.
Record context : Type := Ctx { ctx_message : message }.

Inductive log_level : Type := INFO | ERROR.

(** The mutable state the program acts on. *)
Record bot_state : Type := BotState {
  conversations : gmap string (list turn);
  sent : list (string * json);
  http : list request;
  logged : list (log_level * string)
}.

Definition initial_state : bot_state :=
  {| conversations := ∅; sent := []; http := []; logged := [] |}.

Definition set_conversations (f : gmap string (list turn) -> gmap string (list turn))
    (st : bot_state) : bot_state :=
  {| conversations := f (conversations st); sent := sent st;
     http := http st; logged := logged st |}.

Definition add_sent (x : string * json) (st : bot_state) : bot_state :=
  {| conversations := conversations st; sent := sent st ++ [x];
     http := http st; logged := logged st |}.

Definition add_http (r : request) (st : bot_state) : bot_state :=
  {| conversations := conversations st; sent := sent st;
     http := http st ++ [r]; logged := logged st |}.

Definition add_logged (x : log_level * string) (st : bot_state) : bot_state :=
  {| conversations := conversations st; sent := sent st;
     http := http st; logged := logged st ++ [x] |}.

(** ** The monad of the program: state and exceptions *)

Definition M (A : Type) : Type := bot_state -> outcome A * bot_state.

Definition M_ret {A} (a : A) : M A := λ st, (Ret a, st).

Definition M_bind {A B} (m : M A) (f : A -> M B) : M B :=
  λ st, match m st with
        | (Ret a, st') => f a st'
        | (Raise e, st') => (Raise e, st')
        end.

#[global] Instance M_mret : MRet M := @M_ret.
#[global] Instance M_mbind : MBind M := λ A B f m, M_bind m f.

(** An expression evaluated in the current state. *)
Definition lift {A} (o : outcome A) : M A := λ st, (o, st).

(** [try: m  except Exception as e: h e] *)
Definition try_except {A} (m : M A) (h : exn -> M A) : M A :=
  λ st, match m st with
        | (Ret a, st') => (Ret a, st')
        | (Raise e, st') => h e st'
        end.

Definition exec {A} (m : M A) (st : bot_state) : bot_state := snd (m st).
Definition result {A} (m : M A) (st : bot_state) : outcome A := fst (m st).

Definition logger_info (s : string) : M unit := λ st, (Ret tt, add_logged (INFO, s) st).
Definition logger_error (s : string) : M unit := λ st, (Ret tt, add_logged (ERROR, s) st).

(** [session.get] / [session.post]: the request goes out, the world answers.
    The enclosing [async with aiohttp.ClientSession()], which sits outside
    the [try], opens no connection; creating and closing it is taken not to
    raise. *)
Definition session_request (w : world) (r : request) : M response :=
  λ st, (w r, add_http r st).

(** [c.send(text)]: one reply to the message of [c].  The trace keeps the
    reply with the source of the message it answers; whom the library hands
    it to (that sender, or the group the message came from) is the library's
    business, as is delivery, which is taken not to raise. *)
Definition send (c : context) (reply : json) : M unit :=
  λ st, (Ret tt, add_sent (source (ctx_message c), reply) st).

(** ** class PrivateModeClient *)

Module PrivateModeClient.

Record t : Type := Client { base_url : string; headers : list (string * string) }.

(** [__init__] *)
Definition init (url : string) : t :=
  {| base_url := rstrip "/"%char url;
     headers := [("Content-Type", "application/json")] |}.

(** [[model['id'] for model in data.get('data', [])]] *)
Definition model_ids (data : json) : outcome (list json) :=
  items ← py_dict_get data "data" (JArr []);
  models ← py_iter items;
  comprehension (λ model, py_getitem_str model "id") models.

(** [data['choices'][0]['message']['content']] *)
Definition completion_content (data : json) : outcome json :=
  choices ← py_getitem_str data "choices";
  choice ← py_getitem_nat choices 0;
  msg ← py_getitem_str choice "message";
  py_getitem_str msg "content".

(** The request [list_models] sends. *)
Definition models_request (self : t) : request :=
  Request GET (base_url self +:+ "/v1/models") (headers self) None.

(** The request [chat_completion] sends once the model is known. *)
Definition completion_request (self : t) (messages : list turn) (model : json) : request :=
  Request POST (base_url self +:+ "/v1/chat/completions") (headers self)
    (Some {| payload_model := model;
             payload_messages := messages;
             payload_temperature := QArith_base.Qmake 7 10;
             payload_max_tokens := 1000 |}).

Section Methods.
Context `{PyRuntime}.

Definition list_models (self : t) (w : world) : M (list json) :=
  try_except
    (response ← session_request w (models_request self);
     if bool_decide (status response = 200%Z) then
       data ← lift (json_body response);
       lift (model_ids data)
     else
       logger_error ("Failed to list models: " +:+ pretty (status response));;
       mret [])
    (λ e, logger_error ("Model listing failed: " +:+ str_exn e);; mret []).

(** The part of [chat_completion] after the model is chosen. *)
Definition request_completion (self : t) (w : world) (messages : list turn)
    (model : json) : M json :=
  try_except
    (response ← session_request w (completion_request self messages model);
     if bool_decide (status response = 200%Z) then
       data ← lift (json_body response);
       lift (completion_content data)
     else
       error_text ← lift (text_body response);
       logger_error ("API error: " +:+ pretty (status response) +:+ " - " +:+ error_text);;
       mret (JStr ("Sorry, I encountered an error: " +:+ pretty (status response))))
    (λ e, logger_error ("Request failed: " +:+ str_exn e);;
          mret (JStr ("Sorry, I couldn't process your request: " +:+ str_exn e))).

Definition chat_completion (self : t) (w : world) (messages : list turn)
    (model : option string) : M json :=
  if truthy model then
    request_completion self w messages (JStr (default "" model))
  else
    available_models ← list_models self w;
    match available_models with
    | first :: _ =>
        logger_info ("Using model: " +:+ format_value first);;
        request_completion self w messages first
    | [] => mret (JStr "Sorry, no models are available at the moment.")
    end.

End Methods.
End PrivateModeClient.

(** ** class ChatCommand *)

Definition newline : string := String "010"%char EmptyString.

(** [sender in self.conversations] *)
Definition has_conversation (sender : string) : M bool :=
  λ st, (Ret match conversations st !! sender with
              | Some _ => true
              | None => false
              end, st).

(** [self.conversations[sender]] *)
Definition get_conversation (sender : string) : M (list turn) :=
  λ st, match conversations st !! sender with
        | Some h => (Ret h, st)
        | None => (Raise (KeyError (JStr sender)), st)
        end.

(** [self.conversations[sender] = h] *)
Definition set_conversation (sender : string) (h : list turn) : M unit :=
  λ st, (Ret tt, set_conversations (insert sender h) st).

(** [del self.conversations[sender]] *)
Definition del_conversation (sender : string) : M unit :=
  λ st, match conversations st !! sender with
        | Some _ => (Ret tt, set_conversations (delete sender) st)
        | None => (Raise (KeyError (JStr sender)), st)
        end.

(** [self.conversations[sender].append(x)] *)
Definition append_turn (sender : string) (x : turn) : M unit :=
  h ← get_conversation sender;
  set_conversation sender (h ++ [x]).

(** [l[-n:]] for a positive [n] *)
Definition last_n {A} (n : nat) (l : list A) : list A := drop (length l - n) l.

Module ChatCommand.

Record t : Type := Chat {
  privatemode_client : PrivateModeClient.t;
  model : option string
}.

Definition describe (self : t) : string := "Chat with AI assistant".

Section Methods.
Context `{PyRuntime}.

Definition handle (self : t) (w : world) (c : context) : M unit :=
  logger_info ("ChatCommand.handle called with message: "
               +:+ format_text (text (ctx_message c)));;
  let message_text := text (ctx_message c) in
  if negb (truthy message_text) then
    send c (JStr "Please provide a message to chat with the AI.")
  else
    let sender := source (ctx_message c) in
    known ← has_conversation sender;
    (if negb known then set_conversation sender [] else mret tt);;
    append_turn sender (Turn "user" (JStr (default "" message_text)));;
    h ← get_conversation sender;
    (if bool_decide (10 < length h)
     then set_conversation sender (last_n 10 h) else mret tt);;
    h ← get_conversation sender;
    response ← PrivateModeClient.chat_completion (privatemode_client self) w h (model self);
    append_turn sender (Turn "assistant" response);;
    send c response.

End Methods.
End ChatCommand.

(** ** class ClearCommand *)

Module ClearCommand.

Record t : Type := Clear { chat_command : ChatCommand.t }.

Definition describe (self : t) : string := "Clear conversation history".

(** [handle] works on [self.chat_command.conversations].  The state holds one
    [conversations] dictionary, the one of the chat command the program
    creates, so this is the [handle] of a clear command built around that
    chat command; the properties that put a clear and a chat together say so
    ([chat_command clear = chat]). *)
Definition handle (self : t) (w : world) (c : context) : M unit :=
  let sender := source (ctx_message c) in
  known ← has_conversation sender;
  if (known : bool) then
    del_conversation sender;;
    send c (JStr "Conversation history cleared.")
  else
    send c (JStr "No conversation history to clear.").

End ClearCommand.

(** ** class ModelsCommand *)

Module ModelsCommand.

Record t : Type := Models { privatemode_client : PrivateModeClient.t }.

Definition describe (self : t) : string := "List available AI models".

Section Methods.
Context `{PyRuntime}.

Definition handle (self : t) (w : world) (c : context) : M unit :=
  models ← PrivateModeClient.list_models (privatemode_client self) w;
  let models_text :=
    match models with
    | _ :: _ =>
        "Available models:" +:+ newline
        +:+ String.concat newline (map (λ model, "â€¢ " +:+ format_value model) models)
    | [] => "No models available or unable to fetch model list."
    end in
  send c (JStr models_text).

End Methods.
End ModelsCommand.

(** ** class HelpCommand *)

Module HelpCommand.

Definition describe : string := "Show available commands".

Definition help_text : string :=
  "Available commands:" +:+ newline
  +:+ "!chat <message> - Chat with AI assistant" +:+ newline
  +:+ "!clear - Clear conversation history" +:+ newline
  +:+ "!models - List available models" +:+ newline
  +:+ "!help - Show this help message" +:+ newline
  +:+ newline
  +:+ "You can also send messages without commands for direct chat.".

Definition handle (w : world) (c : context) : M unit :=
  send c (JStr help_text).

End HelpCommand.

(** ** main: class UniversalChatHandler and the registration *)

Module UniversalChatHandler.

Record t : Type := Universal { chat_command : ChatCommand.t }.

(** [__init__], closing over [privatemode_client] and [model] of [main] *)
Definition init (client : PrivateModeClient.t) (model : option string) : t :=
  {| chat_command := ChatCommand.Chat client model |}.

Definition describe (self : t) : string := "Universal chat handler".

Section Methods.
Context `{PyRuntime}.

Definition handle (self : t) (w : world) (c : context) : M unit :=
  logger_info ("UniversalChatHandler.handle called with message: "
               +:+ format_text (text (ctx_message c)));;
  if truthy (text (ctx_message c)) then
    ChatCommand.handle (chat_command self) w c
  else
    mret tt.

End Methods.
End UniversalChatHandler.

(** The [Command] objects of the program. *)
Inductive command : Type :=
| ChatCmd (self : ChatCommand.t)
| ClearCmd (self : ClearCommand.t)
| ModelsCmd (self : ModelsCommand.t)
| HelpCmd
| UniversalCmd (self : UniversalChatHandler.t).

Definition describe (cmd : command) : string :=
  match cmd with
  | ChatCmd self => ChatCommand.describe self
  | ClearCmd self => ClearCommand.describe self
  | ModelsCmd self => ModelsCommand.describe self
  | HelpCmd => HelpCommand.describe
  | UniversalCmd self => UniversalChatHandler.describe self
  end.

Section Bot.
Context `{PyRuntime}.

Definition handle (cmd : command) (w : world) (c : context) : M unit :=
  match cmd with
  | ChatCmd self => ChatCommand.handle self w c
  | ClearCmd self => ClearCommand.handle self w c
  | ModelsCmd self => ModelsCommand.handle self w c
  | HelpCmd => HelpCommand.handle w c
  | UniversalCmd self => UniversalChatHandler.handle self w c
  end.

(** What [main] hands to [bot.register]: the universal handler and nothing
    else.  [None] when SIGNAL_PHONE_NUMBER is missing: [main] returns before
    any bot exists. *)
Definition main (getenv : string -> option string) : option (list command) :=
  let phone_number := getenv "SIGNAL_PHONE_NUMBER" in
  if negb (truthy phone_number) then None
  else
    let privatemode_base_url :=
      default "http://localhost:8080" (getenv "PRIVATEMODE_BASE_URL") in
    let model := getenv "PRIVATEMODE_MODEL" in
    let privatemode_client := PrivateModeClient.init privatemode_base_url in
    Some [UniversalCmd (UniversalChatHandler.init privatemode_client model)].

(** The library's side of [bot.start()]: an inbound message is handed to
    every registered command, in registration order. *)
Fixpoint dispatch (registered : list command) (w : world) (c : context) : M unit :=
  match registered with
  | [] => mret tt
  | cmd :: rest => handle cmd w c;; dispatch rest w c
  end.

(** A run of the program on a sequence of inbound messages, each with the
    world it meets, handled one after the other. *)
Fixpoint run_chats (self : ChatCommand.t) (inbound : list (world * context))
    (st : bot_state) : bot_state :=
  match inbound with
  | [] => st
  | (w, c) :: rest => run_chats self rest (exec (ChatCommand.handle self w c) st)
  end.

End Bot.

Definition history (sender : string) (st : bot_state) : list turn :=
  default [] (conversations st !! sender).

(** ** The handler around its suspension point

    [handle] suspends once while it touches [conversations]: at the [await]
    on [chat_completion].  The code before and the code after that point run
    without interruption on the event loop; [handle_sequential] below shows
    that [handle] is the first, the completion call and the second in a
    row. *)

Section Segments.
Context `{PyRuntime}.

(** From the entry of [handle] to the call: [None] after the early return,
    otherwise the list handed to [chat_completion]. *)
Definition handle_until_await (self : ChatCommand.t) (c : context)
    : M (option (list turn)) :=
  logger_info ("ChatCommand.handle called with message: "
               +:+ format_text (text (ctx_message c)));;
  let message_text := text (ctx_message c) in
  if negb (truthy message_text) then
    send c (JStr "Please provide a message to chat with the AI.");;
    mret None
  else
    let sender := source (ctx_message c) in
    known ← has_conversation sender;
    (if negb known then set_conversation sender [] else mret tt);;
    append_turn sender (Turn "user" (JStr (default "" message_text)));;
    h ← get_conversation sender;
    (if bool_decide (10 < length h)
     then set_conversation sender (last_n 10 h) else mret tt);;
    h ← get_conversation sender;
    mret (Some h).

(** From the value the call delivers to the end of [handle]. *)
Definition handle_resume (c : context) (response : json) : M unit :=
  append_turn (source (ctx_message c)) (Turn "assistant" response);;
  send c response.

End Segments.

(** What the event loop can do with the tasks that run [handle]: start one,
    or resume one with the value its completion call delivered. *)
Inductive event : Type :=
| Begin (c : context)
| Deliver (c : context) (response : json).

Section Interleaving.
Context `{PyRuntime}.

Definition run_event (self : ChatCommand.t) (ev : event) (st : bot_state) : bot_state :=
  match ev with
  | Begin c => exec (handle_until_await self c) st
  | Deliver c response => exec (handle_resume c response) st
  end.

Definition run_schedule (self : ChatCommand.t) (sched : list event) (st : bot_state)
    : bot_state :=
  foldl (λ st ev, run_event self ev st) st sched.

End Interleaving.

(** All the ways to interleave two tasks, each keeping its own order. *)
Fixpoint merges {A} (xs : list A) : list A -> list (list A) :=
  fix inner (ys : list A) : list (list A) :=
    match xs, ys with
    | [], _ => [ys]
    | _, [] => [xs]
    | x :: xs', y :: ys' => map (cons x) (merges xs' ys) ++ map (cons y) (inner ys')
    end.

(** Two chat invocations whose messages were received in the order [c1],
    [c2]: the first task starts first, everything else may interleave. *)
Definition schedules (c1 c2 : context) (r1 r2 : json) : list (list event) :=
  map (cons (Begin c1)) (merges [Deliver c1 r1] [Begin c2; Deliver c2 r2]).

(** The turn an event appends. *)
Definition turn_of_event (ev : event) : turn :=
  match ev with
  | Begin c => Turn "user" (JStr (default "" (text (ctx_message c))))
  | Deliver _ response => Turn "assistant" response
  end.

(** ** Vocabulary of the properties *)

Definition MAX_HISTORY : nat := 10.

Definition is_str (v : json) : Prop := ∃ s, v = JStr s.

(** The requests a computation adds to the trace. *)
Definition issued {A} (m : M A) (st : bot_state) : list request :=
  drop (length (http st)) (http (exec m st)).




(** The reply most recently sent. *)
Definition last_reply (st : bot_state) : json :=
  match last (sent st) with
  | Some (_, reply) => reply
  | None => JNull
  end.

Section Transcript.
Context `{PyRuntime}.

(** The model [chat_completion] puts in its request, if it gets that far. *)
Definition chosen_model (self : PrivateModeClient.t) (w : world)
    (model : option string) : option json :=
  if truthy model then Some (JStr (default "" model))
  else match result (PrivateModeClient.list_models self w) initial_state with
       | Ret (first :: _) => Some first
       | _ => None
       end.

(** Everything said between [sender] and the bot along a run, in receipt
    order and without truncation: each chat message followed by the reply
    that was sent for it. *)
Fixpoint transcript (self : ChatCommand.t) (sender : string)
    (inbound : list (world * context)) (st : bot_state) : list turn :=
  match inbound with
  | [] => []
  | (w, c) :: rest =>
      let st' := exec (ChatCommand.handle self w c) st in
      (if truthy (text (ctx_message c)) && bool_decide (source (ctx_message c) = sender)
       then [Turn "user" (JStr (default "" (text (ctx_message c))));
             Turn "assistant" (last_reply st')]
       else [])
      ++ transcript self sender rest st'
  end.

End Transcript.

(** ** Sample data for the examples *)

(** A runtime for the examples: the detail of a client error, the class name
    of the others. *)
Definition sample_runtime : PyRuntime :=
  {| str_exn := λ e, match e with
                     | ClientError detail => detail
                     | KeyError _ => "KeyError"
                     | IndexError => "IndexError"
                     | TypeError => "TypeError"
                     | AttributeError => "AttributeError"
                     end;
     py_repr := λ _, "..." |}.

Definition models_document (ids : list json) : json :=
  JObj [("data", JArr (map (λ i, JObj [("id", i)]) ids))].

Definition completion_document (reply : json) : json :=
  JObj [("choices", JArr [JObj [("message", JObj [("content", reply)])]])].

Definition ok (data : json) : outcome response :=
  Ret (Response 200 (Ret data) (Ret "")).

Definition http_error (code : Z) (error_text : string) : outcome response :=
  Ret (Response code (Raise (ClientError "unexpected mimetype")) (Ret error_text)).

(** A service that answers the model listing with [models] and every
    completion request with [completion]. *)
Definition service (models completion : outcome response) : world :=
  λ q, match method q with
       | GET => models
       | POST => completion
       end.

Definition sample_client : PrivateModeClient.t :=
  PrivateModeClient.init "http://localhost:8080/".

Definition sample_chat : ChatCommand.t := ChatCommand.Chat sample_client None.

Definition sample_world : world :=
  service (ok (models_document [JStr "m1"; JStr "m2"]))
          (ok (completion_document (JStr "hi there"))).

Definition inbound_message (t : string) : context := Ctx (Message (Some t) "+100").

Definition sample_env (name : string) : option string :=
  if String.eqb name "SIGNAL_PHONE_NUMBER" then Some "+4915100000000" else None.

(** The service lists no model. *)
Definition no_models_world : world :=
  service (ok (models_document [])) (ok (completion_document (JStr "unused"))).

(** The service answers a completion with [content: null]. *)
Definition null_content_world : world :=
  service (ok (models_document [JStr "m1"])) (ok (completion_document JNull)).

(** The service cannot be reached. *)
Definition unreachable_world : world :=
  service (Raise (ClientError "Cannot connect to host localhost:8080"))
          (Raise (ClientError "Cannot connect to host localhost:8080")).


Definition empty_message : context := Ctx (Message (Some "") "+100").

(** A chat command with the model fixed by PRIVATEMODE_MODEL. *)
Definition pinned_chat : ChatCommand.t := ChatCommand.Chat sample_client (Some "m1").

(** A request of the model listing, as opposed to a completion request. *)
Definition is_get (q : request) : bool :=
  match method q with
  | GET => true
  | POST => false
  end.

(** The service lists two models, the second without an [id]. *)
Definition partial_listing_world : world :=
  service (ok (JObj [("data", JArr [JObj [("id", JStr "m1")];
                                    JObj [("name", JStr "m2")]])]))
          (ok (completion_document (JStr "hi there"))).

Definition sample_clear : ClearCommand.t := ClearCommand.Clear sample_chat.

(** The state after one chat: "+100" has said "hello" and got "hi there". *)
Definition chatted_state : bot_state :=
  exec (@ChatCommand.handle sample_runtime sample_chat sample_world
          (inbound_message "hello")) initial_state.

(** ** Running the monad *)

Ltac unfold_M :=
  unfold mbind, mret, M_mbind, M_mret, M_bind, M_ret, outcome_mbind, outcome_ret,
    outcome_bind, lift, try_except, logger_info, logger_error, session_request,
    send, exec, result in *.

Section ClientProperties.
Context `{PyRuntime}.

Import PrivateModeClient.

Lemma comprehension_ids (ids : list json) :
  comprehension (λ model, py_getitem_str model "id") (map (λ i, JObj [("id", i)]) ids)
  = Ret ids.
Proof.
  induction ids as [|i ids IH]; simpl; [reflexivity|].
  now rewrite IH.
Qed.

Lemma model_ids_document (ids : list json) : model_ids (models_document ids) = Ret ids.
Proof.
  unfold model_ids, models_document. unfold_M. simpl.
  apply comprehension_ids.
Qed.

Lemma completion_content_document (reply : json) :
  completion_content (completion_document reply) = Ret reply.
Proof. reflexivity. Qed.

(** [list_models]: always a list, one GET on the trace, nothing else touched. *)
Lemma list_models_run (self : t) (w : world) (st : bot_state) :
  ∃ ms st', list_models self w st = (Ret ms, st')
    ∧ conversations st' = conversations st
    ∧ sent st' = sent st
    ∧ http st' = http st ++ [models_request self].
Proof.
  unfold list_models. unfold_M.
  cbn. repeat case_match; simplify_eq; eauto 10.
Qed.

Lemma list_models_result (self : t) (w : world) (st : bot_state) :
  result (list_models self w) st
  = Ret match w (models_request self) with
        | Ret r =>
            if bool_decide (status r = 200%Z) then
              match json_body r with
              | Ret data => match model_ids data with Ret ids => ids | Raise _ => [] end
              | Raise _ => []
              end
            else []
        | Raise _ => []
        end.
Proof.
  unfold list_models. unfold_M. cbn.
  repeat case_match; simplify_eq; reflexivity.
Qed.

Lemma list_models_any_state (self : t) (w : world) (st st0 : bot_state) :
  result (list_models self w) st = result (list_models self w) st0.
Proof. now rewrite !list_models_result. Qed.

(** [request_completion]: always a value, one POST on the trace, nothing
    else touched. *)
Lemma request_completion_run (self : t) (w : world) (messages : list turn)
    (model : json) (st : bot_state) :
  ∃ v st', request_completion self w messages model st = (Ret v, st')
    ∧ conversations st' = conversations st
    ∧ sent st' = sent st
    ∧ http st' = http st ++ [completion_request self messages model].
Proof.
  unfold request_completion. unfold_M.
  cbn. repeat case_match; simplify_eq; eauto 10.
Qed.

Lemma request_completion_result (self : t) (w : world) (messages : list turn)
    (model : json) (st : bot_state) :
  result (request_completion self w messages model) st
  = Ret match w (completion_request self messages model) with
        | Ret r =>
            if bool_decide (status r = 200%Z) then
              match json_body r with
              | Ret data =>
                  match completion_content data with
                  | Ret reply => reply
                  | Raise e => JStr ("Sorry, I couldn't process your request: " +:+ str_exn e)
                  end
              | Raise e => JStr ("Sorry, I couldn't process your request: " +:+ str_exn e)
              end
            else
              match text_body r with
              | Ret _ => JStr ("Sorry, I encountered an error: " +:+ pretty (status r))
              | Raise e => JStr ("Sorry, I couldn't process your request: " +:+ str_exn e)
              end
        | Raise e => JStr ("Sorry, I couldn't process your request: " +:+ str_exn e)
        end.
Proof.
  unfold request_completion. unfold_M. cbn.
  repeat case_match; simplify_eq; reflexivity.
Qed.

Lemma list_models_value (self : t) (w : world) (st st' st0 : bot_state) (ms : list json) :
  list_models self w st = (Ret ms, st') → result (list_models self w) st0 = Ret ms.
Proof.
  intros Hrun. rewrite (list_models_any_state self w st0 st).
  unfold result. now rewrite Hrun.
Qed.

Lemma request_completion_value (self : t) (w : world) (messages : list turn)
    (model : json) (st st' st0 : bot_state) (v : json) :
  request_completion self w messages model st = (Ret v, st') →
  result (request_completion self w messages model) st0 = Ret v.
Proof.
  intros Hrun. rewrite request_completion_result.
  rewrite <- (request_completion_result self w messages model st).
  unfold result. now rewrite Hrun.
Qed.

(** [chat_completion] in one piece: the value, and the requests in order. *)
Lemma chat_completion_run (self : t) (w : world) (messages : list turn)
    (model : option string) (st : bot_state) :
  ∃ v st', chat_completion self w messages model st = (Ret v, st')
    ∧ conversations st' = conversations st
    ∧ sent st' = sent st
    ∧ http st' = http st
        ++ (if truthy model then [] else [models_request self])
        ++ match chosen_model self w model with
           | Some m => [completion_request self messages m]
           | None => []
           end
    ∧ match chosen_model self w model with
      | Some m => result (request_completion self w messages m) initial_state = Ret v
      | None => v = JStr "Sorry, no models are available at the moment."
      end.
Proof.
  unfold chat_completion, chosen_model.
  destruct (truthy model) eqn:Hm.
  - destruct (request_completion_run self w messages (JStr (default "" model)) st)
      as (v & st' & Hrun & Hc & Hs & Hh).
    exists v, st'. rewrite Hrun. repeat split; try done.
    eapply request_completion_value, Hrun.
  - destruct (list_models_run self w st) as (ms & st1 & Hrun & Hc & Hs & Hh).
    rewrite (list_models_value _ _ _ _ initial_state _ Hrun).
    unfold mbind, M_mbind, M_bind at 1. rewrite Hrun.
    destruct ms as [|first rest].
    + exists (JStr "Sorry, no models are available at the moment."), st1.
      rewrite app_nil_r. done.
    + unfold mbind, M_mbind, M_bind, logger_info. cbn.
      set (st2 := add_logged _ st1).
      destruct (request_completion_run self w messages first st2)
        as (v & st' & Hrun' & Hc' & Hs' & Hh').
      exists v, st'. rewrite Hrun'. repeat split; try (subst st2; simpl in *; congruence).
      * subst st2; simpl in *. rewrite Hh', Hh, <- app_assoc. done.
      * eapply request_completion_value, Hrun'.
Qed.

End ClientProperties.

(** ** The completion client *)

Section ClientTheorems.
Context `{PyRuntime}.

Import PrivateModeClient.

Lemma issued_app {A} (m : M A) (st : bot_state) (qs : list request) :
  http (exec m st) = http st ++ qs → issued m st = qs.
Proof. unfold issued. intros ->. apply drop_app_length. Qed.

Lemma chat_completion_issued (self : t) (w : world) (messages : list turn)
    (model : option string) (st : bot_state) :
  issued (chat_completion self w messages model) st
  = (if truthy model then [] else [models_request self])
    ++ match chosen_model self w model with
       | Some m => [completion_request self messages m]
       | None => []
       end.
Proof.
  destruct (chat_completion_run self w messages model st)
    as (v & st' & Hrun & _ & _ & Hh & _).
  apply issued_app. unfold exec. now rewrite Hrun.
Qed.

Lemma chat_completion_returns (self : t) (w : world) (messages : list turn)
    (model : option string) (st : bot_state) :
  ∃ v, result (chat_completion self w messages model) st = Ret v
    ∧ match chosen_model self w model with
      | Some m => result (request_completion self w messages m) initial_state = Ret v
      | None => v = JStr "Sorry, no models are available at the moment."
      end.
Proof.
  destruct (chat_completion_run self w messages model st)
    as (v & st' & Hrun & _ & _ & _ & Hv).
  exists v. unfold result at 1. now rewrite Hrun.
Qed.

(** C4.  Without an explicit model, an empty model listing makes
    [chat_completion] return exactly "Sorry, no models are available at the
    moment." and the model listing, a GET of [/v1/models], is the only
    request it issues: nothing goes to the completion endpoint.  With a
    non-empty listing a POST to [/v1/chat/completions] follows whose [model]
    field is the first model of the list. *)
Theorem no_models_no_request (self : t) (w : world) (messages : list turn)
    (model : option string) (st : bot_state) :
  truthy model = false →
  (result (list_models self w) st = Ret [] →
     result (chat_completion self w messages model) st
       = Ret (JStr "Sorry, no models are available at the moment.")
     ∧ issued (chat_completion self w messages model) st = [models_request self]
     ∧ ∀ q, q ∈ issued (chat_completion self w messages model) st →
         method q = GET ∧ url q = base_url self +:+ "/v1/models" ∧ body q = None)
  ∧ (∀ first rest, result (list_models self w) st = Ret (first :: rest) →
     ∃ q p,
       issued (chat_completion self w messages model) st = [models_request self; q]
       ∧ method q = POST
       ∧ url q = base_url self +:+ "/v1/chat/completions"
       ∧ body q = Some p
       ∧ payload_model p = first
       ∧ payload_messages p = messages
       ∧ result (chat_completion self w messages model) st
         = result (request_completion self w messages first) st).
Proof.
  intros Hm.
  pose proof (chat_completion_issued self w messages model st) as Hi.
  destruct (chat_completion_returns self w messages model st) as (v & Hv & Hc).
  unfold chosen_model in *. rewrite Hm in *.
  rewrite (list_models_any_state self w initial_state st) in *.
  split.
  - intros Hl. rewrite Hl in *. subst v. split; [done|]. split; [done|].
    intros q Hq. rewrite Hi in Hq. cbn in Hq.
    apply list_elem_of_singleton in Hq. by subst q.
  - intros first rest Hl. rewrite Hl in *.
    eexists (completion_request self messages first), _.
    split; [exact Hi|]. do 5 (split; [reflexivity|]).
    rewrite Hv. symmetry.
    destruct (request_completion_run self w messages first st) as (v' & st' & Hrun & _).
    rewrite (request_completion_value _ _ _ _ _ _ st _ Hrun).
    rewrite (request_completion_value _ _ _ _ _ _ initial_state _ Hrun) in Hc.
    congruence.
Qed.

(** C6.  Every completion request [chat_completion] issues is a POST to
    [/v1/chat/completions] whose body carries the messages it was given,
    temperature 0.7 and max_tokens 1000; and with an explicit model, "m1"
    say, that request is issued, it is the only request, and its [model]
    field is exactly that string, whatever the service would list. *)
Theorem completion_request_shape (self : t) (w : world) (messages : list turn)
    (model : option string) (st : bot_state) :
  (∀ q, q ∈ issued (chat_completion self w messages model) st → method q = POST →
     url q = base_url self +:+ "/v1/chat/completions"
     ∧ ∃ p, body q = Some p
         ∧ payload_messages p = messages
         ∧ payload_temperature p = QArith_base.Qmake 7 10
         ∧ payload_max_tokens p = 1000%Z
         ∧ (∀ a s, model = Some (String a s) → payload_model p = JStr (String a s)))
  ∧ (∀ a s, model = Some (String a s) →
     ∃ q p,
       issued (chat_completion self w messages model) st = [q]
       ∧ method q = POST
       ∧ url q = base_url self +:+ "/v1/chat/completions"
       ∧ body q = Some p
       ∧ payload_model p = JStr (String a s)
       ∧ payload_messages p = messages
       ∧ payload_temperature p = QArith_base.Qmake 7 10
       ∧ payload_max_tokens p = 1000%Z).
Proof.
  rewrite chat_completion_issued. split.
  - intros q Hq Hpost.
    apply elem_of_app in Hq as [Hq|Hq].
    + destruct (truthy model); [by apply elem_of_nil in Hq|].
      apply list_elem_of_singleton in Hq. subst q. discriminate.
    + destruct (chosen_model self w model) as [m|] eqn:Hm; [|by apply elem_of_nil in Hq].
      apply list_elem_of_singleton in Hq. subst q.
      split; [reflexivity|]. eexists. split; [reflexivity|].
      do 3 (split; [reflexivity|]).
      intros a s' ->. unfold chosen_model in Hm. cbn in Hm. by injection Hm as <-.
  - intros a s' ->. cbn.
    eexists (completion_request self messages (JStr (String a s'))), _.
    repeat split.
Qed.

(** C5, where the code departs from it.  [chat_completion] is declared to
    return a string and every failure path returns one, but on a 200
    response it returns [data['choices'][0]['message']['content']] as the
    service sent it, unchecked.  When the service answers the completion
    request with [content: null] the result is [None], which is no string:
    with an explicit model whatever the messages and the model listing are,
    and as well with the first model of a listing. *)
Theorem null_content_not_string (self : t) (models : outcome response)
    (messages : list turn) (a : ascii) (s : string) (first : json) (rest : list json)
    (st : bot_state) :
  result (chat_completion self (service models (ok (completion_document JNull)))
            messages (Some (String a s))) st
  = Ret JNull
  ∧ result (chat_completion self
              (service (ok (models_document (first :: rest)))
                       (ok (completion_document JNull)))
              messages None) st
    = Ret JNull
  ∧ ¬ is_str JNull.
Proof.
  split; [|split].
  - destruct (chat_completion_returns self
                (service models (ok (completion_document JNull)))
                messages (Some (String a s)) st) as (v & Hv & Hc).
    cbn in Hc. rewrite request_completion_result in Hc. cbn in Hc.
    rewrite bool_decide_eq_true_2 in Hc by done. congruence.
  - destruct (chat_completion_returns self
                (service (ok (models_document (first :: rest)))
                         (ok (completion_document JNull)))
                messages None st) as (v & Hv & Hc).
    unfold chosen_model in Hc. cbn [truthy] in Hc.
    rewrite list_models_result in Hc. cbn in Hc.
    rewrite comprehension_ids in Hc. rewrite bool_decide_eq_true_2 in Hc by done.
    rewrite request_completion_result in Hc. cbn in Hc.
    rewrite bool_decide_eq_true_2 in Hc by done. congruence.
  - intros [s' Hs]. discriminate.
Qed.

End ClientTheorems.

(** ** The chat handler, step by step *)

Section HandlerProperties.
Context `{PyRuntime}.

Import PrivateModeClient.

Lemma last_n_short {A} (n : nat) (l : list A) : length l ≤ n → last_n n l = l.
Proof. intros Hl. unfold last_n. replace (length l - n) with 0 by lia. reflexivity. Qed.

Lemma chat_completion_any_state (self : t) (w : world) (messages : list turn)
    (model : option string) (st st0 : bot_state) :
  result (chat_completion self w messages model) st
  = result (chat_completion self w messages model) st0.
Proof.
  destruct (chat_completion_returns self w messages model st) as (v & -> & Hc).
  destruct (chat_completion_returns self w messages model st0) as (v0 & -> & Hc0).
  destruct (chosen_model self w model); congruence.
Qed.

Lemma handle_until_await_run (self : ChatCommand.t) (c : context) (st : bot_state) :
  truthy (text (ctx_message c)) = true →
  let sender := source (ctx_message c) in
  let msgs := last_n 10 (history sender st ++ [turn_of_event (Begin c)]) in
  handle_until_await self c st
  = (Ret (Some msgs),
     set_conversations (insert sender msgs)
       (add_logged (INFO, "ChatCommand.handle called with message: "
                          +:+ format_text (text (ctx_message c))) st)).
Proof.
  intros Ht sender msgs. subst msgs.
  unfold handle_until_await. rewrite Ht. cbn [negb]. fold sender.
  unfold append_turn, has_conversation, get_conversation, set_conversation, history.
  unfold_M. cbn.
  destruct (conversations st !! sender) as [h|] eqn:Hh; cbn; rewrite ?Hh; cbn;
    rewrite ?lookup_insert_eq; cbn.
  - case_bool_decide as Hlen; cbn; rewrite lookup_insert_eq; cbn.
    + unfold set_conversations; cbn. by rewrite insert_insert_eq.
    + pose proof (last_n_short 10 (h ++ [turn_of_event (Begin c)])) as E.
      unfold last_n in E. cbn in E |- *. rewrite E; [done|]. clear E. lia.
  - repeat (rewrite lookup_insert_eq; cbn).
    rewrite bool_decide_eq_false_2 by lia. cbn. rewrite lookup_insert_eq. cbn.
    unfold set_conversations; cbn. by rewrite !insert_insert_eq.
Qed.

Lemma handle_resume_run (c : context) (response : json) (st : bot_state) (h : list turn) :
  conversations st !! source (ctx_message c) = Some h →
  handle_resume c response st
  = (Ret tt,
     add_sent (source (ctx_message c), response)
       (set_conversations
          (insert (source (ctx_message c)) (h ++ [Turn "assistant" response])) st)).
Proof.
  intros Hh. unfold handle_resume, append_turn, get_conversation, set_conversation.
  unfold_M. cbn. by rewrite Hh.
Qed.

Lemma handle_falsy_run (self : ChatCommand.t) (w : world) (c : context) (st : bot_state) :
  truthy (text (ctx_message c)) = false →
  ChatCommand.handle self w c st
  = (Ret tt,
     add_sent (source (ctx_message c), JStr "Please provide a message to chat with the AI.")
       (add_logged (INFO, "ChatCommand.handle called with message: "
                          +:+ format_text (text (ctx_message c))) st)).
Proof. intros Ht. unfold ChatCommand.handle. by rewrite Ht. Qed.

Lemma handle_sequential (self : ChatCommand.t) (w : world) (c : context) (st : bot_state) :
  ChatCommand.handle self w c st
  = (pending ← handle_until_await self c;
     match pending with
     | None => mret tt
     | Some h =>
         response ← chat_completion (ChatCommand.privatemode_client self) w h
                      (ChatCommand.model self);
         handle_resume c response
     end) st.
Proof.
  unfold ChatCommand.handle, handle_until_await, handle_resume.
  destruct (truthy (text (ctx_message c))); cbn [negb].
  - unfold_M. cbn. repeat case_match; simplify_eq; try reflexivity.
  - reflexivity.
Qed.
Lemma handle_chat_run (self : ChatCommand.t) (w : world) (c : context) (st : bot_state) :
  truthy (text (ctx_message c)) = true →
  let sender := source (ctx_message c) in
  let msgs := last_n 10 (history sender st ++ [turn_of_event (Begin c)]) in
  let call := chat_completion (ChatCommand.privatemode_client self) w msgs
                (ChatCommand.model self) in
  ∃ response st',
    ChatCommand.handle self w c st = (Ret tt, st')
    ∧ result call st = Ret response
    ∧ conversations st' = <[sender := msgs ++ [Turn "assistant" response]]> (conversations st)
    ∧ sent st' = sent st ++ [(sender, response)]
    ∧ http st' = http st ++ issued call st.
Proof.
  intros Ht sender msgs call.
  rewrite handle_sequential.
  unfold mbind, M_mbind, M_bind at 1.
  rewrite handle_until_await_run by done. fold sender msgs.
  set (st1 := set_conversations _ _).
  unfold mbind, M_mbind, M_bind at 1. fold call.
  destruct (chat_completion_run (ChatCommand.privatemode_client self) w msgs
              (ChatCommand.model self) st1) as (v & st2 & Hrun & Hc & Hs & Hh & Hv).
  fold call in Hrun. rewrite Hrun.
  rewrite (handle_resume_run c v st2 msgs).
  2:{ rewrite Hc. subst st1. cbn. apply lookup_insert_eq. }
  eexists v, _. split; [reflexivity|].
  split.
  { subst call. rewrite (chat_completion_any_state _ _ _ _ st st1).
    unfold result. by rewrite Hrun. }
  cbn. rewrite Hc, Hs, Hh. subst st1. cbn. fold sender.
  rewrite insert_insert_eq. repeat split; try done.
  f_equal. subst call. by rewrite chat_completion_issued.
Qed.
End HandlerProperties.

(** ** The handlers *)

Section HandlerTheorems.
Context `{PyRuntime}.

Import PrivateModeClient.

Lemma history_lookup (sender : string) (st : bot_state) (h : list turn) :
  conversations st !! sender = Some h → history sender st = h.
Proof. unfold history. by intros ->. Qed.

Lemma last_n_last {A} (n : nat) (l : list A) (x : A) :
  last_n (S n) (l ++ [x]) = last_n n l ++ [x].
Proof.
  unfold last_n. rewrite length_app, drop_app. cbn.
  replace (length l + 1 - S n) with (length l - n) by lia.
  by replace (length l - n - length l) with 0 by lia.
Qed.

(** C7.  A chat message with non-empty text always leaves both turns in the
    sender's history: the user turn, then an assistant turn whose content is
    what [chat_completion] returned, which is also the reply sent.  When the
    completion call fails that content is the error text: the transport
    failure text, the status text, or the no-models text. *)
Theorem chat_persists_failure (self : ChatCommand.t) (w : world) (c : context)
    (st : bot_state) :
  truthy (text (ctx_message c)) = true →
  let sender := source (ctx_message c) in
  let client := ChatCommand.privatemode_client self in
  let user := Turn "user" (JStr (default "" (text (ctx_message c)))) in
  let st' := exec (ChatCommand.handle self w c) st in
  ∃ older response,
    result (ChatCommand.handle self w c) st = Ret tt
    ∧ history sender st' = older ++ [user; Turn "assistant" response]
    ∧ result (chat_completion client w (older ++ [user]) (ChatCommand.model self)) st
      = Ret response
    ∧ sent st' = sent st ++ [(sender, response)]
    ∧ (chosen_model client w (ChatCommand.model self) = None →
         response = JStr "Sorry, no models are available at the moment.")
    ∧ (∀ m, chosen_model client w (ChatCommand.model self) = Some m →
         let q := completion_request client (older ++ [user]) m in
         (∀ e, w q = Raise e →
            response = JStr ("Sorry, I couldn't process your request: " +:+ str_exn e))
         ∧ (∀ r body_text, w q = Ret r → status r ≠ 200%Z → text_body r = Ret body_text →
              response = JStr ("Sorry, I encountered an error: " +:+ pretty (status r)))).
Proof.
  intros Ht sender client user st'.
  destruct (handle_chat_run self w c st Ht) as (response & st1 & Hrun & Hres & Hc & Hs & _).
  cbn zeta in *. fold sender client in Hres, Hc, Hs.
  change (turn_of_event (Begin c)) with user in *.
  rewrite (last_n_last 9) in *.
  set (older := last_n 9 (history sender st)) in *.
  exists older, response.
  assert (st' = st1) as -> by (subst st'; unfold exec; by rewrite Hrun).
  split; [unfold result; by rewrite Hrun|].
  split; [erewrite history_lookup; [|rewrite Hc; apply lookup_insert_eq];
          by rewrite <- app_assoc|].
  split; [done|]. split; [done|].
  destruct (chat_completion_returns client w (older ++ [user]) (ChatCommand.model self) st)
    as (v & Hv & Hcase).
  assert (v = response) as -> by congruence.
  split.
  - intros Hn. by rewrite Hn in Hcase.
  - intros m Hm. rewrite Hm in Hcase. rewrite request_completion_result in Hcase.
    injection Hcase as Hcase. cbv zeta. split.
    + intros e He. by rewrite He in Hcase.
    + intros r body_text Hr Hst Hb. rewrite Hr, Hb in Hcase.
      by rewrite bool_decide_eq_false_2 in Hcase.
Qed.

Lemma main_registered (getenv : string → option string) (registered : list command) :
  main getenv = Some registered →
  ∃ chat, registered = [UniversalCmd (UniversalChatHandler.Universal chat)].
Proof.
  unfold main. case_match; [done|].
  intros [= <-]. by eexists.
Qed.

Lemma dispatch_single (cmd : command) (w : world) (c : context) (st : bot_state) :
  dispatch [cmd] w c st = handle cmd w c st.
Proof.
  cbn. unfold_M. destruct (handle cmd w c st) as [[[]|e] st']; reflexivity.
Qed.


(** C10.  For a message whose text is absent or empty, the handler that
    [main] registers sends nothing and changes no conversation: all it does
    is write its own log line.  [ChatCommand.handle] is not entered, so
    neither its log line nor its prompt appears. *)
Theorem universal_ignores_empty (getenv : string → option string)
    (registered : list command) (w : world) (c : context) (st : bot_state) :
  main getenv = Some registered →
  truthy (text (ctx_message c)) = false →
  let st' := exec (dispatch registered w c) st in
  result (dispatch registered w c) st = Ret tt
  ∧ sent st' = sent st
  ∧ conversations st' = conversations st
  ∧ http st' = http st
  ∧ logged st' = logged st ++ [(INFO, "UniversalChatHandler.handle called with message: "
                                      +:+ format_text (text (ctx_message c)))].
Proof.
  intros Hmain Ht st'. subst st'.
  destruct (main_registered _ _ Hmain) as [chat ->].
  unfold exec, result. rewrite dispatch_single. cbn.
  unfold UniversalChatHandler.handle. by rewrite Ht.
Qed.

(** C2, as the code has it.  [main] registers the universal handler and
    nothing else, and no handler looks for a command token: every message
    with a non-empty text, "models", "clear" and "help" included, is logged
    and handed with its full text to [ChatCommand.handle]. *)
Theorem every_text_goes_to_chat (getenv : string → option string)
    (registered : list command) (w : world) (c : context) (st : bot_state) :
  main getenv = Some registered →
  truthy (text (ctx_message c)) = true →
  ∃ chat,
    registered = [UniversalCmd (UniversalChatHandler.Universal chat)]
    ∧ dispatch registered w c st
      = ChatCommand.handle chat w c
          (add_logged (INFO, "UniversalChatHandler.handle called with message: "
                             +:+ format_text (text (ctx_message c))) st).
Proof.
  intros Hmain Ht.
  destruct (main_registered _ _ Hmain) as [chat ->].
  exists chat. split; [done|].
  rewrite dispatch_single. cbn.
  unfold UniversalChatHandler.handle. by rewrite Ht.
Qed.

Lemma models_handle_conversations (self : ModelsCommand.t) (w : world) (c : context)
    (st : bot_state) :
  conversations (exec (ModelsCommand.handle self w c) st) = conversations st.
Proof.
  unfold ModelsCommand.handle, exec.
  destruct (list_models_run (ModelsCommand.privatemode_client self) w st)
    as (ms & st1 & Hrun & Hc & _).
  unfold mbind, M_mbind, M_bind. rewrite Hrun. by cbn.
Qed.

End HandlerTheorems.

(** ** Runs of chat invocations *)

Section RunTheorems.
Context `{PyRuntime}.

Import PrivateModeClient.

Lemma length_last_n {A} (n : nat) (l : list A) : length (last_n n l) = min n (length l).
Proof. unfold last_n. rewrite length_drop. lia. Qed.

Lemma last_n_app {A} (n : nat) (l k : list A) :
  last_n (n + length k) (l ++ k) = last_n n l ++ k.
Proof.
  unfold last_n. rewrite length_app, drop_app.
  replace (length l + length k - (n + length k)) with (length l - n) by lia.
  by replace (length l - n - length l) with 0 by lia.
Qed.

Lemma last_n_last_n {A} (n m : nat) (l : list A) :
  n ≤ m → last_n n (last_n m l) = last_n n l.
Proof.
  intros Hnm. unfold last_n. rewrite length_drop, drop_drop. f_equal. lia.
Qed.

(** One chat on top of a history that holds the tail of what was said. *)
Lemma last_n_chat {A} (full : list A) (u a : A) :
  last_n 10 (last_n 11 full ++ [u]) ++ [a] = last_n 11 (full ++ [u; a]).
Proof.
  change (last_n 10 (last_n 11 full ++ [u]))
    with (last_n (9 + length [u]) (last_n 11 full ++ [u])).
  rewrite last_n_app, last_n_last_n by lia.
  change (last_n 11 (full ++ [u; a])) with (last_n (9 + length [u; a]) (full ++ [u; a])).
  rewrite last_n_app. by rewrite <- app_assoc.
Qed.

Lemma handle_other_sender (self : ChatCommand.t) (w : world) (c : context)
    (st : bot_state) (sender : string) :
  source (ctx_message c) ≠ sender →
  history sender (exec (ChatCommand.handle self w c) st) = history sender st.
Proof.
  intros Hne. destruct (truthy (text (ctx_message c))) eqn:Ht.
  - destruct (handle_chat_run self w c st Ht) as (r & st' & Hrun & _ & Hc & _).
    unfold exec, history. rewrite Hrun. cbn. rewrite Hc.
    by rewrite lookup_insert_ne.
  - unfold exec. by rewrite handle_falsy_run.
Qed.

Lemma handle_same_sender (self : ChatCommand.t) (w : world) (c : context)
    (st : bot_state) :
  truthy (text (ctx_message c)) = true →
  let st' := exec (ChatCommand.handle self w c) st in
  history (source (ctx_message c)) st'
  = last_n 10 (history (source (ctx_message c)) st
               ++ [Turn "user" (JStr (default "" (text (ctx_message c))))])
    ++ [Turn "assistant" (last_reply st')].
Proof.
  intros Ht st'. subst st'.
  destruct (handle_chat_run self w c st Ht) as (r & st' & Hrun & _ & Hc & Hs & _).
  unfold exec. rewrite Hrun. cbn.
  erewrite history_lookup; [|rewrite Hc; apply lookup_insert_eq].
  unfold last_reply. rewrite Hs, last_snoc. reflexivity.
Qed.

(** The history is the tail of the transcript, all along a run. *)
Lemma run_chats_history (self : ChatCommand.t) (sender : string)
    (inbound : list (world * context)) (st : bot_state) (full : list turn) :
  history sender st = last_n 11 full →
  history sender (run_chats self inbound st)
  = last_n 11 (full ++ transcript self sender inbound st).
Proof.
  revert st full. induction inbound as [|[w c] rest IH]; intros st full Hst.
  - cbn. by rewrite app_nil_r.
  - cbn [run_chats transcript].
    destruct (truthy (text (ctx_message c))) eqn:Ht; cbn [andb].
    + case_bool_decide as Hsrc.
      * rewrite app_assoc. apply IH. subst sender.
        rewrite handle_same_sender by done.
        rewrite Hst. apply last_n_chat.
      * cbn [app]. apply IH. by rewrite handle_other_sender.
    + cbn [app]. apply IH.
      unfold exec. by rewrite handle_falsy_run.
Qed.

Lemma history_initial (sender : string) : history sender initial_state = [].
Proof. reflexivity. Qed.

(** The completion requests of a run carry at most ten messages. *)
Lemma run_chats_requests (self : ChatCommand.t) (inbound : list (world * context))
    (st : bot_state) (q : request) :
  q ∈ http (run_chats self inbound st) →
  q ∈ http st ∨ ∀ p, body q = Some p → length (payload_messages p) ≤ 10.
Proof.
  revert st. induction inbound as [|[w c] rest IH]; intros st Hq; [by left|].
  cbn [run_chats] in Hq. apply IH in Hq as [Hq|Hq]; [|by right].
  destruct (truthy (text (ctx_message c))) eqn:Ht.
  - destruct (handle_chat_run self w c st Ht) as (r & st' & Hrun & _ & _ & _ & Hh).
    unfold exec in Hq. rewrite Hrun in Hq. cbn in Hq, Hh.
    rewrite Hh, chat_completion_issued in Hq.
    apply elem_of_app in Hq as [Hq|Hq]; [by left|right].
    apply elem_of_app in Hq as [Hq|Hq].
    + destruct (truthy _); [by apply elem_of_nil in Hq|].
      apply list_elem_of_singleton in Hq. by subst q.
    + destruct (chosen_model _ _ _) as [m|]; [|by apply elem_of_nil in Hq].
      apply list_elem_of_singleton in Hq. subst q.
      intros p [= <-]. cbn. rewrite length_last_n. lia.
  - unfold exec in Hq. rewrite handle_falsy_run in Hq by done. by left.
Qed.

(** C1, as the code has it.  After any run of chat invocations the history
    of a sender is the tail of everything said between that sender and the
    bot, in receipt order: the most recent MAX_HISTORY + 1 = 11 turns (all
    of them while there are fewer).  The bound is 11 and not 10 because the
    assistant turn is appended after the truncation. *)
Theorem history_keeps_most_recent (self : ChatCommand.t) (sender : string)
    (inbound : list (world * context)) :
  let full := transcript self sender inbound initial_state in
  let kept := history sender (run_chats self inbound initial_state) in
  kept = last_n (MAX_HISTORY + 1) full
  ∧ length kept = min (MAX_HISTORY + 1) (length full)
  ∧ kept `suffix_of` full.
Proof.
  intros full kept.
  assert (kept = last_n 11 full) as Hk.
  { subst kept full. by rewrite (run_chats_history self sender inbound initial_state []). }
  split; [done|]. rewrite Hk. split.
  - apply length_last_n.
  - unfold last_n. apply suffix_drop.
Qed.

(** C9.  Along every run of chat invocations each history holds at most
    MAX_HISTORY + 1 = 11 turns: the truncation to the last 10 happens right
    after the user turn is appended, so a completion request never carries
    more than 10 messages, and the assistant turn appended afterwards can
    bring the stored history to 11, which six chats of one sender do. *)
Theorem history_bound_is_eleven (self : ChatCommand.t) :
  (∀ inbound sender,
     length (history sender (run_chats self inbound initial_state)) ≤ MAX_HISTORY + 1)
  ∧ (∀ inbound q p,
       q ∈ http (run_chats self inbound initial_state) → body q = Some p →
       length (payload_messages p) ≤ MAX_HISTORY)
  ∧ (∀ w, length (history "+100"
                    (run_chats self (replicate 6 (w, inbound_message "hello"))
                       initial_state)) = MAX_HISTORY + 1).
Proof.
  split; [|split].
  - intros inbound sender.
    rewrite (run_chats_history self sender inbound initial_state []) by done.
    rewrite length_last_n. unfold MAX_HISTORY. lia.
  - intros inbound q p Hq Hp.
    apply run_chats_requests in Hq as [Hq|Hq]; [by apply elem_of_nil in Hq|].
    by apply Hq.
  - intros w.
    rewrite (run_chats_history self "+100" _ initial_state []) by done.
    rewrite length_last_n. cbn. reflexivity.
Qed.

End RunTheorems.

(** ** Two chats of one sender at once *)

Section InterleavingTheorems.
Context `{PyRuntime}.

Import PrivateModeClient.

Lemma last_n_snoc {A} (n m : nat) (l k : list A) :
  m = n + length k → last_n m (l ++ k) = last_n n l ++ k.
Proof. intros ->. apply last_n_app. Qed.

Lemma begin_lookup (self : ChatCommand.t) (c : context) (st : bot_state) :
  truthy (text (ctx_message c)) = true →
  conversations (run_event self (Begin c) st) !! source (ctx_message c)
  = Some (last_n 10 (history (source (ctx_message c)) st ++ [turn_of_event (Begin c)])).
Proof.
  intros Ht. cbn [run_event]. unfold exec.
  rewrite handle_until_await_run by done. cbn. apply lookup_insert_eq.
Qed.

Lemma deliver_lookup (self : ChatCommand.t) (c : context) (response : json)
    (st : bot_state) (h : list turn) :
  conversations st !! source (ctx_message c) = Some h →
  conversations (run_event self (Deliver c response) st) !! source (ctx_message c)
  = Some (h ++ [turn_of_event (Deliver c response)]).
Proof.
  intros Hh. cbn [run_event]. unfold exec.
  rewrite (handle_resume_run c response st h) by done. cbn. apply lookup_insert_eq.
Qed.

(** The events of one task, run back to back with the value the completion
    call returned, leave the conversations as [handle] does. *)
Lemma handle_as_events (self : ChatCommand.t) (w : world) (c : context)
    (st : bot_state) :
  truthy (text (ctx_message c)) = true →
  ∃ response,
    conversations (exec (ChatCommand.handle self w c) st)
    = conversations (run_schedule self [Begin c; Deliver c response] st).
Proof.
  intros Ht.
  destruct (handle_chat_run self w c st Ht) as (r & st' & Hrun & _ & Hc & _).
  exists r. unfold exec at 1. rewrite Hrun. cbn [snd]. rewrite Hc.
  cbn [run_schedule foldl run_event]. unfold exec.
  rewrite handle_until_await_run by done. cbn [snd].
  erewrite handle_resume_run; [|cbn; apply lookup_insert_eq].
  cbn. by rewrite insert_insert_eq.
Qed.

(** C8, as the code has it.  The handler takes no lock, and each chat
    appends two turns.  When two chats of one sender overlap, started in
    receipt order and interleaved in any way at the await on the completion
    call, nothing is lost: the history ends with the four turns in the order
    the event loop ran them, the user turns in receipt order, on top of a
    tail of the earlier history.  The history grows by four turns while
    there is room and can reach MAX_HISTORY + 2 = 12. *)
Theorem concurrent_chats_keep_all_turns (self : ChatCommand.t) (c1 c2 : context)
    (r1 r2 : json) (st : bot_state) (sched : list event) :
  source (ctx_message c2) = source (ctx_message c1) →
  truthy (text (ctx_message c1)) = true →
  truthy (text (ctx_message c2)) = true →
  sched ∈ schedules c1 c2 r1 r2 →
  let sender := source (ctx_message c1) in
  let before := history sender st in
  let after := history sender (run_schedule self sched st) in
  (∃ older, older `suffix_of` before ∧ after = older ++ map turn_of_event sched)
  ∧ length after ≤ MAX_HISTORY + 2
  ∧ (length before ≤ 7 → length after = length before + 4).
Proof.
  intros Hsrc Ht1 Ht2 Hsched sender before after. subst sender.
  pose proof (begin_lookup self c1 st Ht1) as H1. fold before in H1.
  set (st1 := run_event self (Begin c1) st) in *.
  unfold schedules in Hsched. cbn in Hsched.
  repeat (apply elem_of_cons in Hsched as [->|Hsched]); [| | |by apply elem_of_nil in Hsched].
  - (* the first chat completes before the second starts *)
    pose proof (deliver_lookup self c1 r1 st1 _ H1) as H2.
    set (st2 := run_event self (Deliver c1 r1) st1) in *.
    pose proof (begin_lookup self c2 st2 Ht2) as H3. rewrite Hsrc in H3.
    rewrite (history_lookup _ _ _ H2) in H3.
    set (st3 := run_event self (Begin c2) st2) in *.
    pose proof (deliver_lookup self c2 r2 st3) as H4. rewrite Hsrc in H4.
    specialize (H4 _ H3).
    assert (after = last_n 7 before ++ map turn_of_event
                      [Begin c1; Deliver c1 r1; Begin c2; Deliver c2 r2]) as Ha.
    { subst after. cbn [run_schedule foldl]. fold st1 st2 st3.
      rewrite (history_lookup _ _ _ H4).
      rewrite (last_n_snoc 9 10 before) by done.
      rewrite <- !app_assoc. cbn [app].
      rewrite (last_n_snoc 7 10 (last_n 9 before)) by done.
      rewrite last_n_last_n by lia. by rewrite <- app_assoc. }
    rewrite Ha. split; [|split].
    + eexists. split; [|reflexivity]. apply suffix_drop.
    + rewrite length_app, length_last_n, length_map. cbn [length].
      unfold MAX_HISTORY. lia.
    + intros Hb. rewrite length_app, length_last_n, length_map. cbn [length]. lia.
  - (* both started, the first one resumes first *)
    pose proof (begin_lookup self c2 st1 Ht2) as H2. rewrite Hsrc in H2.
    rewrite (history_lookup _ _ _ H1) in H2.
    set (st2 := run_event self (Begin c2) st1) in *.
    pose proof (deliver_lookup self c1 r1 st2 _ H2) as H3.
    set (st3 := run_event self (Deliver c1 r1) st2) in *.
    pose proof (deliver_lookup self c2 r2 st3) as H4. rewrite Hsrc in H4.
    specialize (H4 _ H3).
    assert (after = last_n 8 before ++ map turn_of_event
                      [Begin c1; Begin c2; Deliver c1 r1; Deliver c2 r2]) as Ha.
    { subst after. cbn [run_schedule foldl]. fold st1 st2 st3.
      rewrite (history_lookup _ _ _ H4).
      rewrite (last_n_snoc 9 10 before) by done.
      rewrite <- !app_assoc. cbn [app].
      rewrite (last_n_snoc 8 10 (last_n 9 before)) by done.
      rewrite last_n_last_n by lia. by rewrite <- !app_assoc. }
    rewrite Ha. split; [|split].
    + eexists. split; [|reflexivity]. apply suffix_drop.
    + rewrite length_app, length_last_n, length_map. cbn [length].
      unfold MAX_HISTORY. lia.
    + intros Hb. rewrite length_app, length_last_n, length_map. cbn [length]. lia.
  - (* both started, the second one resumes first *)
    pose proof (begin_lookup self c2 st1 Ht2) as H2. rewrite Hsrc in H2.
    rewrite (history_lookup _ _ _ H1) in H2.
    set (st2 := run_event self (Begin c2) st1) in *.
    pose proof (deliver_lookup self c2 r2 st2) as H3. rewrite Hsrc in H3.
    specialize (H3 _ H2).
    set (st3 := run_event self (Deliver c2 r2) st2) in *.
    pose proof (deliver_lookup self c1 r1 st3 _ H3) as H4.
    assert (after = last_n 8 before ++ map turn_of_event
                      [Begin c1; Begin c2; Deliver c2 r2; Deliver c1 r1]) as Ha.
    { subst after. cbn [run_schedule foldl]. fold st1 st2 st3.
      rewrite (history_lookup _ _ _ H4).
      rewrite (last_n_snoc 9 10 before) by done.
      rewrite <- !app_assoc. cbn [app].
      rewrite (last_n_snoc 8 10 (last_n 9 before)) by done.
      rewrite last_n_last_n by lia. by rewrite <- !app_assoc. }
    rewrite Ha. split; [|split].
    + eexists. split; [|reflexivity]. apply suffix_drop.
    + rewrite length_app, length_last_n, length_map. cbn [length].
      unfold MAX_HISTORY. lia.
    + intros Hb. rewrite length_app, length_last_n, length_map. cbn [length]. lia.
Qed.

End InterleavingTheorems.

(** ** The client, beyond the requests *)

Section ClientExtras.
Context `{PyRuntime}.

Import PrivateModeClient.

Lemma rstrip_snoc (c : ascii) (s : string) :
  rstrip c (s +:+ String c EmptyString) = rstrip c s.
Proof.
  induction s as [|a s IH].
  - change (rstrip c (String c EmptyString) = EmptyString).
    cbn [rstrip]. by rewrite Ascii.eqb_refl.
  - change (rstrip c (String a (s +:+ String c EmptyString)) = rstrip c (String a s)).
    cbn [rstrip]. by rewrite IH.
Qed.

Lemma rstrip_no_trailing (c : ascii) (s t : string) :
  rstrip c s ≠ t +:+ String c EmptyString.
Proof.
  revert t. induction s as [|a s IH]; intros t; cbn [rstrip].
  - by destruct t.
  - destruct (rstrip c s) as [|b r] eqn:Hr.
    + destruct (Ascii.eqb a c) eqn:Hac; [by destruct t|].
      destruct t as [|a' t].
      * intros [= ->]. by rewrite Ascii.eqb_refl in Hac.
      * intros [= -> Ht]. by destruct t.
    + destruct t as [|a' t]; [done|].
      intros [= -> Ht]. by apply (IH t).
Qed.

Lemma rstrip_fixed (c : ascii) (s : string) :
  (∀ t, s ≠ t +:+ String c EmptyString) → rstrip c s = s.
Proof.
  induction s as [|a s IH]; intros Hs; cbn [rstrip]; [done|].
  rewrite IH.
  - destruct s; [|done].
    destruct (Ascii.eqb a c) eqn:Hac; [|done].
    apply Ascii.eqb_eq in Hac as ->. by destruct (Hs EmptyString).
  - intros t ->. by apply (Hs (String a t)).
Qed.

(** X1.  Trailing slashes of the base URL do not matter: the client built
    from [url/] is the client built from [url], its base URL never ends in a
    slash, and a URL without a trailing slash is kept as it is.  So the
    request URLs never contain a double slash before [v1]. *)
Theorem init_trailing_slash (url : string) :
  init (url +:+ "/") = init url
  ∧ (∀ t, base_url (init url) ≠ t +:+ "/")
  ∧ ((∀ t, url ≠ t +:+ "/") → base_url (init url) = url).
Proof.
  unfold init. cbn. split; [|split].
  - by rewrite rstrip_snoc.
  - apply rstrip_no_trailing.
  - apply rstrip_fixed.
Qed.

Lemma comprehension_all {A B} (f : A → outcome B) (l : list A) (ys : list B) :
  Forall2 (λ x y, f x = Ret y) l ys → comprehension f l = Ret ys.
Proof.
  induction 1 as [|x y l ys Hxy _ IH]; cbn; [done|].
  by rewrite Hxy, IH.
Qed.

Lemma comprehension_some_raise {A B} (f : A → outcome B) (l : list A) (x : A) :
  x ∈ l → (∀ y, f x ≠ Ret y) → ∃ e, comprehension f l = Raise e.
Proof.
  intros Hx. induction Hx as [x l|x x' l _ IH]; intros Hf; cbn.
  - destruct (f x) as [y|e]; [by destruct (Hf y)|by exists e].
  - destruct (f x') as [y|e]; [|by exists e].
    destruct (IH Hf) as [e ->]. by exists e.
Qed.

Lemma list_models_ok_body (self : t) (w : world) (st : bot_state) (r : response)
    (data : json) :
  w (models_request self) = Ret r → status r = 200%Z → json_body r = Ret data →
  result (list_models self w) st
  = Ret match model_ids data with Ret ids => ids | Raise _ => [] end.
Proof.
  intros Hw Hs Hj. rewrite list_models_result, Hw, Hj.
  by rewrite bool_decide_eq_true_2.
Qed.

Lemma model_ids_entries (fields : list (string * json)) (entries : list json) :
  assoc "data" fields = Some (JArr entries) →
  model_ids (JObj fields)
  = comprehension (λ model, py_getitem_str model "id") entries.
Proof.
  intros Hd. unfold model_ids, py_dict_get. rewrite Hd. reflexivity.
Qed.

(** X2.  The model listing is all or nothing.  On a 200 response whose
    [data] is a list, [list_models] returns the [id] of every entry, in
    order, when every entry has one; a single entry without an [id] (or that
    is no object) makes it return the empty list, the other ids included. *)
Theorem list_models_all_or_nothing (self : t) (w : world) (st : bot_state)
    (r : response) (fields : list (string * json)) (entries : list json) :
  w (models_request self) = Ret r →
  status r = 200%Z →
  json_body r = Ret (JObj fields) →
  assoc "data" fields = Some (JArr entries) →
  (∀ ids, Forall2 (λ entry i, py_getitem_str entry "id" = Ret i) entries ids →
     result (list_models self w) st = Ret ids)
  ∧ (∀ entry, entry ∈ entries → (∀ i, py_getitem_str entry "id" ≠ Ret i) →
       result (list_models self w) st = Ret []).
Proof.
  intros Hw Hs Hj Hd.
  rewrite (list_models_ok_body self w st r _ Hw Hs Hj).
  rewrite (model_ids_entries _ _ Hd). split.
  - intros ids Hids. by rewrite (comprehension_all _ _ _ Hids).
  - intros entry Hin Hno.
    by destruct (comprehension_some_raise
                   (λ model, py_getitem_str model "id") _ _ Hin Hno) as [e ->].
Qed.

(** X3.  [list_models] records every failure and nothing else: either the
    service answered 200 with a body the ids could be read from, and then
    the ids are returned and nothing is logged; or the result is the empty
    list and exactly one ERROR record is added to the log. *)
Theorem list_models_logs_failures (self : t) (w : world) (st : bot_state) :
  let st' := exec (list_models self w) st in
  (∃ r data ids,
      w (models_request self) = Ret r ∧ status r = 200%Z
      ∧ json_body r = Ret data ∧ model_ids data = Ret ids
      ∧ result (list_models self w) st = Ret ids
      ∧ logged st' = logged st)
  ∨ (result (list_models self w) st = Ret []
     ∧ ∃ text, logged st' = logged st ++ [(ERROR, text)]).
Proof.
  unfold list_models. unfold_M. cbn.
  destruct (w (models_request self)) as [r|e] eqn:Hw; cbn; [|right; eauto].
  case_bool_decide as Hs; cbn; [|right; eauto].
  destruct (json_body r) as [data|e] eqn:Hj; cbn; [|right; eauto].
  destruct (model_ids data) as [ids|e] eqn:Hi; cbn; [|right; eauto].
  left. exists r, data, ids. done.
Qed.

(** X4.  What [chat_completion] reads of a 200 body: the expression
    [data['choices'][0]['message']['content']] yields a value exactly when
    the body is an object whose [choices] is a list that starts with an
    object whose [message] is an object with a [content] key, and the value
    is that content.  Further choices and other keys are ignored; every
    other body raises. *)
Theorem completion_content_shape (data v : json) :
  completion_content data = Ret v
  ↔ ∃ fields choice rest msg,
      data = JObj fields
      ∧ assoc "choices" fields = Some (JArr (JObj choice :: rest))
      ∧ assoc "message" choice = Some (JObj msg)
      ∧ assoc "content" msg = Some v.
Proof.
  unfold completion_content. unfold_M. split.
  - destruct data as [| | | |?|fields]; try done. cbn.
    destruct (assoc "choices" fields) as [choices|] eqn:Hc; [|done]. cbn.
    destruct choices as [| | |s|items|?]; try done; cbn.
    + destruct s as [|a s]; [done|]. cbn. done.
    + destruct items as [|first rest]; [done|]. cbn.
      destruct first as [| | | |?|choice]; try done. cbn.
      destruct (assoc "message" choice) as [m|] eqn:Hm; [|done]. cbn.
      destruct m as [| | | |?|msg]; try done. cbn.
      destruct (assoc "content" msg) as [x|] eqn:Hx; [|done]. cbn.
      intros [= <-]. by exists fields, choice, rest, msg.
  - intros (fields & choice & rest & msg & -> & Hc & Hm & Hx).
    cbn. rewrite Hc. cbn. rewrite Hm. cbn. by rewrite Hx.
Qed.

(** X5.  What the completion request leaves in the log.  On a status other
    than 200 the body text goes to the log, in one ERROR record, and not
    into the returned string, which embeds the status alone; an exception of
    the request is logged in one ERROR record with its text; a 200 response
    whose content could be read logs nothing. *)
Theorem request_completion_logs (self : t) (w : world) (messages : list turn)
    (model : json) (st : bot_state) :
  let q := completion_request self messages model in
  let st' := exec (request_completion self w messages model) st in
  (∀ r body_text, w q = Ret r → status r ≠ 200%Z → text_body r = Ret body_text →
     logged st' = logged st
                  ++ [(ERROR, "API error: " +:+ pretty (status r) +:+ " - " +:+ body_text)]
     ∧ result (request_completion self w messages model) st
       = Ret (JStr ("Sorry, I encountered an error: " +:+ pretty (status r))))
  ∧ (∀ r data v, w q = Ret r → status r = 200%Z → json_body r = Ret data →
       completion_content data = Ret v → logged st' = logged st)
  ∧ (∀ e, w q = Raise e →
       logged st' = logged st ++ [(ERROR, "Request failed: " +:+ str_exn e)]).
Proof.
  intros q st'. subst q st'.
  unfold request_completion. unfold_M. cbn.
  split; [|split].
  - intros r body_text -> Hs ->. by rewrite bool_decide_eq_false_2.
  - intros r data v -> Hs -> ->. by rewrite bool_decide_eq_true_2.
  - by intros e ->.
Qed.

(** X16.  Neither [list_models] nor [chat_completion] raises, whatever the
    service does.  [list_models] returns a list: empty on a transport
    failure, on a status other than 200 and on a body it cannot take apart,
    otherwise the [id] values of the entries of [data], in order, whatever
    other keys the entries have.  [chat_completion] returns a value: the
    literal "Sorry, I encountered an error: <status>" on a status other than
    200 whose body can be read, the literal "Sorry, I couldn't process your
    request: <str(e)>" on every exception, the no-models literal when a
    model is needed and none is listed, and otherwise the [content] field of
    the first choice as the service sent it.  The value is a string in every
    case but the last. *)
Theorem client_never_raises (self : t) (w : world) (messages : list turn)
    (model : option string) (st : bot_state) :
  (∃ ms, result (list_models self w) st = Ret ms
     ∧ (∀ e, w (models_request self) = Raise e → ms = [])
     ∧ (∀ r, w (models_request self) = Ret r → status r ≠ 200%Z → ms = [])
     ∧ (∀ r e, w (models_request self) = Ret r → json_body r = Raise e → ms = [])
     ∧ (∀ r data e, w (models_request self) = Ret r → json_body r = Ret data →
          model_ids data = Raise e → ms = [])
     ∧ (∀ r data ids, w (models_request self) = Ret r → status r = 200%Z →
          json_body r = Ret data → model_ids data = Ret ids → ms = ids)
     ∧ (∀ r fields entries ids, w (models_request self) = Ret r → status r = 200%Z →
          json_body r = Ret (JObj fields) → assoc "data" fields = Some (JArr entries) →
          Forall2 (λ entry i, py_getitem_str entry "id" = Ret i) entries ids →
          ms = ids)
     ∧ (∀ r ids, w (models_request self) = Ret r → status r = 200%Z →
          json_body r = Ret (models_document ids) → ms = ids))
  ∧ (∃ v, result (chat_completion self w messages model) st = Ret v
     ∧ (chosen_model self w model = None →
          v = JStr "Sorry, no models are available at the moment.")
     ∧ (∀ m, chosen_model self w model = Some m →
          let q := completion_request self messages m in
          let failed e := v = JStr ("Sorry, I couldn't process your request: " +:+ str_exn e) in
          (∀ e, w q = Raise e → failed e)
          ∧ (∀ r body_text, w q = Ret r → status r ≠ 200%Z → text_body r = Ret body_text →
               v = JStr ("Sorry, I encountered an error: " +:+ pretty (status r)))
          ∧ (∀ r e, w q = Ret r → status r ≠ 200%Z → text_body r = Raise e → failed e)
          ∧ (∀ r e, w q = Ret r → status r = 200%Z → json_body r = Raise e → failed e)
          ∧ (∀ r data e, w q = Ret r → status r = 200%Z → json_body r = Ret data →
               completion_content data = Raise e → failed e)
          ∧ (∀ r data reply, w q = Ret r → status r = 200%Z → json_body r = Ret data →
               completion_content data = Ret reply → v = reply)
          ∧ (is_str v
             ∨ ∃ r data, w q = Ret r ∧ status r = 200%Z ∧ json_body r = Ret data
                 ∧ completion_content data = Ret v))).
Proof.
  split.
  - eexists. split; [apply list_models_result|].
    repeat split.
    + by intros e ->.
    + intros r -> Hs. by rewrite bool_decide_eq_false_2.
    + intros r e -> ->. by case_bool_decide.
    + intros r data e -> -> ->. by case_bool_decide.
    + intros r data ids -> Hs -> ->. by rewrite bool_decide_eq_true_2.
    + intros r fields entries ids -> Hs -> Hd Hids.
      rewrite bool_decide_eq_true_2 by done.
      by rewrite (model_ids_entries _ _ Hd), (comprehension_all _ _ _ Hids).
    + intros r ids -> Hs ->. rewrite bool_decide_eq_true_2 by done.
      by rewrite model_ids_document.
  - destruct (chat_completion_returns self w messages model st) as (v & Hv & Hc).
    exists v. split; [done|]. split.
    + intros Hn. by rewrite Hn in Hc.
    + intros m Hm. rewrite Hm in Hc. rewrite request_completion_result in Hc.
      injection Hc as Hc. cbv zeta. repeat split.
      * intros e He. by rewrite He in Hc.
      * intros r body_text Hr Hs Ht. rewrite Hr, Ht in Hc.
        by rewrite bool_decide_eq_false_2 in Hc.
      * intros r e Hr Hs Ht. rewrite Hr, Ht in Hc.
        by rewrite bool_decide_eq_false_2 in Hc.
      * intros r e Hr Hs Hj. rewrite Hr, Hj in Hc.
        by rewrite bool_decide_eq_true_2 in Hc.
      * intros r data e Hr Hs Hj Hd. rewrite Hr, Hj, Hd in Hc.
        by rewrite bool_decide_eq_true_2 in Hc.
      * intros r data reply Hr Hs Hj Hd. rewrite Hr, Hj, Hd in Hc.
        by rewrite bool_decide_eq_true_2 in Hc.
      * destruct (w (completion_request self messages m)) as [r|e] eqn:Hr;
          [|left; by eexists].
        case_bool_decide as Hs.
        -- destruct (json_body r) as [data|e] eqn:Hj; [|left; by eexists].
           destruct (completion_content data) as [reply|e] eqn:Hd; [|left; by eexists].
           right. exists r, data. by subst.
        -- destruct (text_body r); left; by eexists.
Qed.

End ClientExtras.

(** ** The other handlers, and the handlers together *)

Section HandlerExtras.
Context `{PyRuntime}.

Import PrivateModeClient.

Lemma clear_run (self : ClearCommand.t) (w : world) (c : context) (st : bot_state) :
  ClearCommand.handle self w c st
  = (Ret tt,
     add_sent (source (ctx_message c),
               JStr (match conversations st !! source (ctx_message c) with
                     | Some _ => "Conversation history cleared."
                     | None => "No conversation history to clear."
                     end))
       (set_conversations (delete (source (ctx_message c))) st)).
Proof.
  unfold ClearCommand.handle, has_conversation, del_conversation. unfold_M. cbn.
  destruct (conversations st !! source (ctx_message c)) as [h|] eqn:Hh; cbn.
  - by rewrite Hh.
  - unfold add_sent, set_conversations. cbn. by rewrite delete_id.
Qed.

(** X6.  [ClearCommand.handle] never raises (the [del] is guarded by the
    membership test), leaves the sender without a history, touches no other
    sender, issues no request, and sends exactly one reply: "Conversation
    history cleared." when there was a history, "No conversation history to
    clear." when there was none. *)
Theorem clear_forgets_sender (self : ClearCommand.t) (w : world) (c : context)
    (st : bot_state) :
  let sender := source (ctx_message c) in
  let st' := exec (ClearCommand.handle self w c) st in
  result (ClearCommand.handle self w c) st = Ret tt
  ∧ conversations st' !! sender = None
  ∧ (∀ other, other ≠ sender → conversations st' !! other = conversations st !! other)
  ∧ sent st' = sent st
               ++ [(sender, JStr (if bool_decide (is_Some (conversations st !! sender))
                                  then "Conversation history cleared."
                                  else "No conversation history to clear."))]
  ∧ http st' = http st.
Proof.
  intros sender st'. subst st'. unfold exec, result. rewrite clear_run. cbn.
  fold sender. repeat split.
  - apply lookup_delete_eq.
  - intros other Hne. by apply lookup_delete_ne.
  - destruct (conversations st !! sender); [by rewrite bool_decide_eq_true_2|].
    rewrite bool_decide_eq_false_2; [done|]. by intros [? ?].
Qed.

(** X7.  A chat after a clear starts afresh, when the clear command wraps
    the chat command that handles the chat (so that both work on the same
    [conversations]): whatever the sender's history was, the completion
    request that follows a clear carries the new user message alone, and the
    history afterwards is that message and its reply. *)
Theorem clear_then_chat_starts_afresh (clear : ClearCommand.t) (chat : ChatCommand.t)
    (w0 w : world) (c0 c : context) (st : bot_state) :
  ClearCommand.chat_command clear = chat →
  source (ctx_message c0) = source (ctx_message c) →
  truthy (text (ctx_message c)) = true →
  let sender := source (ctx_message c) in
  let user := Turn "user" (JStr (default "" (text (ctx_message c)))) in
  let st1 := exec (ClearCommand.handle clear w0 c0) st in
  let st2 := exec (ChatCommand.handle chat w c) st1 in
  ∃ response,
    result (chat_completion (ChatCommand.privatemode_client chat) w [user]
              (ChatCommand.model chat)) st = Ret response
    ∧ history sender st2 = [user; Turn "assistant" response]
    ∧ (∀ q p, q ∈ issued (ChatCommand.handle chat w c) st1 → body q = Some p →
         payload_messages p = [user]).
Proof.
  intros _ Hsrc Ht sender user st1 st2.
  assert (history sender st1 = []) as Hh1.
  { subst st1. unfold history, exec. rewrite clear_run. cbn. rewrite Hsrc.
    fold sender. by rewrite lookup_delete_eq. }
  destruct (handle_chat_run chat w c st1 Ht) as (r & st' & Hrun & Hres & Hc & _ & Hh).
  cbn zeta in *. fold sender in Hres, Hc, Hh. rewrite Hh1 in *.
  change (last_n 10 ([] ++ [turn_of_event (Begin c)])) with [user] in *.
  exists r. split; [|split].
  - by rewrite (chat_completion_any_state _ _ _ _ st st1).
  - subst st2. unfold exec. rewrite Hrun. cbn.
    erewrite history_lookup; [|rewrite Hc; apply lookup_insert_eq]. done.
  - intros q p Hq Hp.
    assert (issued (ChatCommand.handle chat w c) st1
            = issued (chat_completion (ChatCommand.privatemode_client chat) w [user]
                        (ChatCommand.model chat)) st1) as Hi.
    { apply issued_app. unfold exec. rewrite Hrun. exact Hh. }
    rewrite Hi, chat_completion_issued in Hq.
    apply elem_of_app in Hq as [Hq|Hq].
    + destruct (truthy (ChatCommand.model chat)); [by apply elem_of_nil in Hq|].
      apply list_elem_of_singleton in Hq. by subst q.
    + destruct (chosen_model _ _ _) as [m|]; [|by apply elem_of_nil in Hq].
      apply list_elem_of_singleton in Hq. subst q. by injection Hp as <-.
Qed.

(** X8.  [ModelsCommand.handle] never raises, issues the model listing
    request and no other, changes no conversation and sends exactly one
    reply: "No models available or unable to fetch model list." when the
    listing is empty (a failed listing and an empty one look the same to the
    user), and otherwise "Available models:" followed by one bullet line per
    model id. *)
Theorem models_reply (self : ModelsCommand.t) (w : world) (c : context)
    (st : bot_state) :
  let client := ModelsCommand.privatemode_client self in
  let st' := exec (ModelsCommand.handle self w c) st in
  ∃ ms reply,
    result (list_models client w) st = Ret ms
    ∧ result (ModelsCommand.handle self w c) st = Ret tt
    ∧ sent st' = sent st ++ [(source (ctx_message c), JStr reply)]
    ∧ conversations st' = conversations st
    ∧ http st' = http st ++ [models_request client]
    ∧ (ms = [] → reply = "No models available or unable to fetch model list.")
    ∧ (∀ name names, ms = map JStr (name :: names) →
         reply = "Available models:" +:+ newline
                 +:+ String.concat newline (map (λ n, "â€¢ " +:+ n) (name :: names))).
Proof.
  intros client st'. subst st'.
  destruct (list_models_run client w st) as (ms & st1 & Hrun & Hc & Hs & Hh).
  unfold ModelsCommand.handle, exec, result. fold client.
  unfold mbind, M_mbind, M_bind. rewrite Hrun.
  eexists ms, _. cbn. rewrite Hc, Hs, Hh.
  repeat split.
  - by intros ->.
  - intros name names ->. cbn [map]. do 2 f_equal.
    by rewrite map_map.
Qed.

Lemma chat_handle_reply (self : ChatCommand.t) (w : world) (c : context)
    (st : bot_state) :
  ∃ reply st', ChatCommand.handle self w c st = (Ret tt, st')
    ∧ sent st' = sent st ++ [(source (ctx_message c), reply)].
Proof.
  destruct (truthy (text (ctx_message c))) eqn:Ht.
  - destruct (handle_chat_run self w c st Ht) as (r & st1 & Hrun & _ & _ & Hs & _).
    eauto.
  - rewrite handle_falsy_run by done. eauto.
Qed.

(** X9.  A call of [ChatCommand.handle] that runs from its start to its end
    with no other task changing the conversations in between never raises,
    in any state and whatever the service does (the lookups of
    [self.conversations[sender]] then never miss), and it calls [c.send]
    exactly once: with the prompt when the text is absent or empty, and
    otherwise with what [chat_completion] returned for the sender's last ten
    turns, the new user turn included. *)
Theorem chat_replies_once (self : ChatCommand.t) (w : world) (c : context)
    (st : bot_state) :
  let st' := exec (ChatCommand.handle self w c) st in
  let user := Turn "user" (JStr (default "" (text (ctx_message c)))) in
  let msgs := last_n 10 (history (source (ctx_message c)) st ++ [user]) in
  result (ChatCommand.handle self w c) st = Ret tt
  ∧ ∃ entry,
      sent st' = sent st ++ [entry]
      ∧ if truthy (text (ctx_message c))
        then result (chat_completion (ChatCommand.privatemode_client self) w msgs
                       (ChatCommand.model self)) st = Ret (snd entry)
        else snd entry = JStr "Please provide a message to chat with the AI.".
Proof.
  intros st' user msgs. subst st'. unfold exec, result.
  destruct (truthy (text (ctx_message c))) eqn:Ht.
  - destruct (handle_chat_run self w c st Ht) as (r & st1 & Hrun & Hres & _ & Hs & _).
    rewrite Hrun. cbn [fst snd]. split; [done|].
    eexists. split; [exact Hs|]. exact Hres.
  - rewrite handle_falsy_run by done. cbn. split; [done|]. by eexists.
Qed.

(** X10.  The bot [main] sets up never raises on an inbound message and
    replies exactly once when the message has a non-empty text, and not at
    all otherwise. *)
Theorem bot_replies_once_iff_text (getenv : string → option string)
    (registered : list command) (w : world) (c : context) (st : bot_state) :
  main getenv = Some registered →
  let st' := exec (dispatch registered w c) st in
  result (dispatch registered w c) st = Ret tt
  ∧ (if truthy (text (ctx_message c))
     then ∃ reply, sent st' = sent st ++ [(source (ctx_message c), reply)]
     else sent st' = sent st).
Proof.
  intros Hmain st'. subst st'.
  destruct (main_registered _ _ Hmain) as [chat ->].
  unfold exec, result. rewrite dispatch_single. cbn.
  unfold UniversalChatHandler.handle.
  destruct (truthy (text (ctx_message c))) eqn:Ht; [|done].
  unfold mbind, M_mbind, M_bind, logger_info. cbn.
  set (st0 := add_logged _ st).
  destruct (chat_handle_reply chat w c st0) as (reply & st1 & -> & Hs).
  split; [done|]. by exists reply.
Qed.

Lemma handle_issued (self : ChatCommand.t) (w : world) (c : context) (st : bot_state) :
  truthy (text (ctx_message c)) = true →
  issued (ChatCommand.handle self w c) st
  = issued (chat_completion (ChatCommand.privatemode_client self) w
              (last_n 10 (history (source (ctx_message c)) st
                          ++ [Turn "user" (JStr (default "" (text (ctx_message c))))]))
              (ChatCommand.model self)) st.
Proof.
  intros Ht.
  destruct (handle_chat_run self w c st Ht) as (r & st' & Hrun & _ & _ & _ & Hh).
  apply issued_app. unfold exec. rewrite Hrun. exact Hh.
Qed.

(** X11.  The context of a chat that runs with no other task changing the
    conversations before its request goes out (line 106 hands the live list
    to [chat_completion]): every completion request [handle] issues for a
    message carries the sender's nine most recent stored turns followed by
    the new user message, which is its last message; no turn of another
    sender is in it. *)
Theorem chat_request_context (self : ChatCommand.t) (w : world) (c : context)
    (st : bot_state) (q : request) (p : payload) :
  truthy (text (ctx_message c)) = true →
  q ∈ issued (ChatCommand.handle self w c) st →
  body q = Some p →
  let user := Turn "user" (JStr (default "" (text (ctx_message c)))) in
  payload_messages p = last_n 9 (history (source (ctx_message c)) st) ++ [user]
  ∧ last (payload_messages p) = Some user.
Proof.
  intros Ht Hq Hp user.
  rewrite handle_issued, chat_completion_issued in Hq by done.
  assert (payload_messages p = last_n 9 (history (source (ctx_message c)) st) ++ [user])
    as Hm.
  { apply elem_of_app in Hq as [Hq|Hq].
    - destruct (truthy (ChatCommand.model self)); [by apply elem_of_nil in Hq|].
      apply list_elem_of_singleton in Hq. by subst q.
    - destruct (chosen_model _ _ _) as [m|]; [|by apply elem_of_nil in Hq].
      apply list_elem_of_singleton in Hq. subst q. injection Hp as <-. cbn.
      apply (last_n_last 9). }
  split; [done|]. rewrite Hm. apply last_snoc.
Qed.

(** X12.  If the sender's history is cleared, by a clear command that wraps
    the chat command, while a chat of that sender awaits its completion, the
    chat cannot finish: when it resumes, [self.conversations[sender]] is
    gone, the append raises [KeyError], the assistant turn is not stored and
    the reply is not sent.  The only reply the sender gets is the one of the
    clear. *)
Theorem clear_while_awaiting (chat : ChatCommand.t) (clear : ClearCommand.t)
    (w0 : world) (c c0 : context) (response : json) (st : bot_state) :
  ClearCommand.chat_command clear = chat →
  truthy (text (ctx_message c)) = true →
  source (ctx_message c0) = source (ctx_message c) →
  let st1 := exec (handle_until_await chat c) st in
  let st2 := exec (ClearCommand.handle clear w0 c0) st1 in
  sent st2 = sent st ++ [(source (ctx_message c), JStr "Conversation history cleared.")]
  ∧ handle_resume c response st2
    = (Raise (KeyError (JStr (source (ctx_message c)))), st2).
Proof.
  intros _ Ht Hsrc st1 st2. subst st2 st1. unfold exec.
  rewrite handle_until_await_run by done. cbn [snd].
  rewrite clear_run. cbn [snd]. rewrite Hsrc. split.
  - cbn. by rewrite lookup_insert_eq.
  - unfold handle_resume, append_turn, get_conversation. unfold_M. cbn.
    by rewrite lookup_delete_eq.
Qed.

End HandlerExtras.

(** ** Runs, beyond the bound *)

Section RunExtras.
Context `{PyRuntime}.

Import PrivateModeClient.

Lemma handle_history_congr (self : ChatCommand.t) (w : world) (c : context)
    (st1 st2 : bot_state) (sender : string) :
  history sender st1 = history sender st2 →
  history sender (exec (ChatCommand.handle self w c) st1)
  = history sender (exec (ChatCommand.handle self w c) st2).
Proof.
  intros Hh.
  destruct (decide (source (ctx_message c) = sender)) as [<-|Hne].
  - destruct (truthy (text (ctx_message c))) eqn:Ht.
    + destruct (handle_chat_run self w c st1 Ht) as (r1 & st1' & Hrun1 & Hr1 & Hc1 & _).
      destruct (handle_chat_run self w c st2 Ht) as (r2 & st2' & Hrun2 & Hr2 & Hc2 & _).
      cbn zeta in *. rewrite Hh in *.
      rewrite (chat_completion_any_state _ _ _ _ st1 st2) in Hr1.
      assert (r1 = r2) as -> by congruence.
      unfold exec. rewrite Hrun1, Hrun2. cbn.
      erewrite !history_lookup; [reflexivity| |].
      * rewrite Hc2. apply lookup_insert_eq.
      * rewrite Hc1. apply lookup_insert_eq.
    + unfold exec. by rewrite !handle_falsy_run.
  - by rewrite !handle_other_sender.
Qed.

(** X13.  Senders do not see each other: after any run of chat invocations
    the history of a sender is what it would be had only that sender's
    messages been handled. *)
Theorem run_chats_per_sender (self : ChatCommand.t) (sender : string)
    (inbound : list (world * context)) (st : bot_state) :
  history sender (run_chats self inbound st)
  = history sender
      (run_chats self
         (filter (λ wc, source (ctx_message wc.2) = sender) inbound) st).
Proof.
  assert (∀ st1 st2, history sender st1 = history sender st2 →
            history sender (run_chats self inbound st1)
            = history sender
                (run_chats self
                   (filter (λ wc, source (ctx_message wc.2) = sender) inbound) st2))
    as Hgen; [|by apply Hgen].
  induction inbound as [|[w c] rest IH]; intros st1 st2 Hh; [done|].
  rewrite filter_cons. cbn [run_chats]. case_decide as Hsrc; cbn in Hsrc.
  - cbn [run_chats]. apply IH. by apply handle_history_congr.
  - apply IH. by rewrite handle_other_sender.
Qed.

Lemma filter_is_get_issued (self : PrivateModeClient.t) (w : world)
    (messages : list turn) (model : option string) (st : bot_state) :
  List.filter is_get (issued (chat_completion self w messages model) st)
  = if truthy model then [] else [models_request self].
Proof.
  rewrite chat_completion_issued, List.filter_app.
  destruct (truthy model); destruct (chosen_model self w model); reflexivity.
Qed.

(** X14.  The automatically chosen model is never remembered: without a
    configured model, a run issues one model listing request per chat
    message with a non-empty text, however many came before; with a
    configured model it never lists the models. *)
Theorem model_listed_on_every_chat (self : ChatCommand.t)
    (inbound : list (world * context)) :
  let gets := List.filter is_get (http (run_chats self inbound initial_state)) in
  let chats := List.filter (λ wc, truthy (text (ctx_message wc.2))) inbound in
  (truthy (ChatCommand.model self) = false →
     gets = replicate (length chats)
              (models_request (ChatCommand.privatemode_client self)))
  ∧ (truthy (ChatCommand.model self) = true → gets = []).
Proof.
  cbv zeta.
  assert (∀ st,
    List.filter is_get (http (run_chats self inbound st))
    = List.filter is_get (http st)
      ++ (if truthy (ChatCommand.model self) then []
          else replicate
                 (length (List.filter (λ wc, truthy (text (ctx_message wc.2))) inbound))
                 (models_request (ChatCommand.privatemode_client self)))) as Hgen.
  { induction inbound as [|[w c] rest IH]; intros st.
    - cbn. destruct (truthy _); by rewrite app_nil_r.
    - cbn [run_chats List.filter snd]. rewrite IH.
      destruct (truthy (text (ctx_message c))) eqn:Ht.
      + destruct (handle_chat_run self w c st Ht) as (r & st' & Hrun & _ & _ & _ & Hh).
        unfold exec at 1. rewrite Hrun. cbn [snd]. rewrite Hh, List.filter_app.
        rewrite filter_is_get_issued.
        destruct (truthy (ChatCommand.model self)); [by rewrite !app_nil_r|].
        by rewrite <- app_assoc.
      + unfold exec. by rewrite handle_falsy_run. }
  split; intros Hm; rewrite Hgen, Hm; reflexivity.
Qed.

Lemma transcript_roles (self : ChatCommand.t) (sender : string)
    (inbound : list (world * context)) (st : bot_state) (i : nat) (t : turn) :
  transcript self sender inbound st !! i = Some t →
  role t = if Nat.even i then "user" else "assistant".
Proof.
  revert st i. induction inbound as [|[w c] rest IH]; intros st i Hi; [done|].
  cbn [transcript] in Hi.
  destruct (truthy (text (ctx_message c)) && bool_decide (source (ctx_message c) = sender)).
  - destruct i as [|[|i]]; cbn in Hi.
    + by injection Hi as <-.
    + by injection Hi as <-.
    + apply IH in Hi. exact Hi.
  - by apply IH in Hi.
Qed.

Lemma transcript_even (self : ChatCommand.t) (sender : string)
    (inbound : list (world * context)) (st : bot_state) :
  Nat.even (length (transcript self sender inbound st)) = true.
Proof.
  revert st. induction inbound as [|[w c] rest IH]; intros st; [done|].
  cbn [transcript]. rewrite length_app.
  destruct (truthy (text (ctx_message c)) && bool_decide (source (ctx_message c) = sender));
    cbn; apply IH.
Qed.

(** X15.  Roles in a stored history.  After any run the turns of a history
    alternate and the last one is an assistant turn.  While at most five
    chats were exchanged the history is the whole exchange and starts with a
    user turn; from the sixth chat on it starts with an assistant turn: the
    truncation counts turns, not pairs, and has evicted the user turn of the
    oldest pair that is still there. *)
Theorem long_history_starts_with_assistant (self : ChatCommand.t) (sender : string)
    (inbound : list (world * context)) :
  let full := transcript self sender inbound initial_state in
  let kept := history sender (run_chats self inbound initial_state) in
  (∀ i t, kept !! i = Some t →
     role t = if Nat.even (i + length kept) then "user" else "assistant")
  ∧ (12 ≤ length full → ∃ t, head kept = Some t ∧ role t = "assistant")
  ∧ (length full ≤ 10 → kept = full).
Proof.
  intros full kept.
  assert (kept = last_n 11 full) as Hk.
  { subst kept full. by rewrite (run_chats_history self sender inbound initial_state []). }
  pose proof (transcript_even self sender inbound initial_state) as Hev. fold full in Hev.
  assert (length kept = min 11 (length full)) as Hlen by (rewrite Hk; apply length_last_n).
  assert (∀ i t, kept !! i = Some t →
            role t = if Nat.even (length full - 11 + i) then "user" else "assistant") as Hr.
  { intros i t Hi. rewrite Hk in Hi. unfold last_n in Hi. rewrite lookup_drop in Hi.
    by apply transcript_roles in Hi. }
  clearbody kept full.
  split; [|split].
  - intros i t Hi. rewrite (Hr i t Hi).
    assert (i < length kept) by (by apply lookup_lt_Some in Hi).
    replace (Nat.even (i + length kept)) with (Nat.even (length full - 11 + i)); [done|].
    destruct (decide (length full ≤ 11)) as [Hle|Hgt].
    + replace (length full - 11 + i) with i by lia.
      replace (length kept) with (length full) by lia.
      rewrite Nat.even_add, Hev. by destruct (Nat.even i).
    + replace (length kept) with 11 by lia.
      replace (length full - 11 + i) with (length full - 12 + (i + 1)) by lia.
      replace (i + 11) with (i + 1 + 10) by lia.
      rewrite !Nat.even_add.
      replace (Nat.even (length full - 12)) with true; [by destruct (Nat.even (i + 1))|].
      symmetry. rewrite Nat.even_sub by lia. by rewrite Hev.
  - intros Hlong.
    destruct kept as [|t kept']; [cbn [length] in Hlen; lia|].
    exists t. split; [done|].
    rewrite (Hr 0 t eq_refl).
    replace (length full - 11 + 0) with (length full - 12 + 1) by lia.
    rewrite Nat.even_add, Nat.even_sub, Hev by lia. done.
  - intros Hshort. rewrite Hk. apply last_n_short. lia.
Qed.

End RunExtras.

(** ** The properties at concrete inputs *)

(** The examples run under [sample_runtime]. *)
#[local] Existing Instance sample_runtime.

(** Six chats of one sender leave eleven turns, one more than MAX_HISTORY. *)
Lemma history_exceeds_ten :
  ¬ length (history "+100"
              (run_chats sample_chat
                 (replicate 6 (sample_world, inbound_message "hello")) initial_state))
    ≤ MAX_HISTORY.
Proof. vm_compute. lia. Qed.

(** The text "models" reaches the chat handler: the reply is the completion,
    and the history changes, which no [ModelsCommand.handle] does. *)
Lemma models_text_not_routed :
  ∃ registered,
    main sample_env = Some registered
    ∧ let st' := exec (dispatch registered sample_world
                         (inbound_message "models")) initial_state in
      sent st' = [("+100", JStr "hi there")]
      ∧ history "+100" st' = [Turn "user" (JStr "models"); Turn "assistant" (JStr "hi there")]
      ∧ ∀ self,
          conversations st'
          ≠ conversations (exec (ModelsCommand.handle self sample_world
                                   (inbound_message "models")) initial_state).
Proof.
  eexists. split; [reflexivity|]. cbv zeta.
  split; [vm_compute; reflexivity|]. split; [vm_compute; reflexivity|].
  intros self Heq. rewrite models_handle_conversations in Heq.
  apply (f_equal (λ m, m !! "+100")) in Heq. vm_compute in Heq. discriminate.
Qed.


(** Two overlapping chats on an empty history leave four turns, not two. *)
Lemma concurrent_chats_add_four :
  let c1 := inbound_message "first" in
  let c2 := inbound_message "second" in
  let sched := [Begin c1; Begin c2; Deliver c1 (JStr "one"); Deliver c2 (JStr "two")] in
  let st' := run_schedule sample_chat sched initial_state in
  sched ∈ schedules c1 c2 (JStr "one") (JStr "two")
  ∧ history "+100" st' = [Turn "user" (JStr "first"); Turn "user" (JStr "second");
                          Turn "assistant" (JStr "one"); Turn "assistant" (JStr "two")]
  ∧ length (history "+100" st')
    ≠ min (length (history "+100" initial_state) + 2) MAX_HISTORY.
Proof.
  cbv zeta. split; [|split].
  - unfold schedules. cbn. apply list_elem_of_further, list_elem_of_here.
  - vm_compute. reflexivity.
  - vm_compute. discriminate.
Qed.

Lemma no_models_no_request_witness :
  truthy (None : option string) = false
  ∧ (result (PrivateModeClient.list_models sample_client no_models_world) initial_state
     = Ret []
     ∧ result (PrivateModeClient.chat_completion sample_client
                 no_models_world [Turn "user" (JStr "hello")] None) initial_state
       = Ret (JStr "Sorry, no models are available at the moment.")
     ∧ issued (PrivateModeClient.chat_completion sample_client
                 no_models_world [Turn "user" (JStr "hello")] None) initial_state
       = [PrivateModeClient.models_request sample_client])
  ∧ (result (PrivateModeClient.list_models sample_client sample_world) initial_state
     = Ret [JStr "m1"; JStr "m2"]
     ∧ ∃ q p,
         issued (PrivateModeClient.chat_completion sample_client
                   sample_world [Turn "user" (JStr "hello")] None) initial_state
         = [PrivateModeClient.models_request sample_client; q]
         ∧ method q = POST
         ∧ body q = Some p
         ∧ payload_model p = JStr "m1"
         ∧ payload_messages p = [Turn "user" (JStr "hello")]).
Proof.
  split; [reflexivity|]. split.
  - assert (result (PrivateModeClient.list_models sample_client no_models_world)
              initial_state = Ret []) as Hl by (vm_compute; reflexivity).
    split; [exact Hl|].
    destruct (no_models_no_request sample_client no_models_world
                [Turn "user" (JStr "hello")] None initial_state eq_refl) as [Hempty _].
    destruct (Hempty Hl) as (Hr & Hi & _). split; [exact Hr | exact Hi].
  - assert (result (PrivateModeClient.list_models sample_client sample_world)
              initial_state = Ret [JStr "m1"; JStr "m2"]) as Hl by (vm_compute; reflexivity).
    split; [exact Hl|].
    destruct (no_models_no_request sample_client sample_world
                [Turn "user" (JStr "hello")] None initial_state eq_refl) as [_ Hfirst].
    destruct (Hfirst _ _ Hl) as (q & p & Hi & Hm & _ & Hb & Hp & Hms & _).
    exists q, p. repeat split; assumption.
Defined.

Lemma completion_request_shape_witness :
  ∃ q p,
    issued (PrivateModeClient.chat_completion sample_client
              sample_world [Turn "user" (JStr "hello")] (Some "m9")) initial_state = [q]
    ∧ method q = POST
    ∧ body q = Some p
    ∧ payload_model p = JStr "m9"
    ∧ payload_messages p = [Turn "user" (JStr "hello")]
    ∧ payload_temperature p = QArith_base.Qmake 7 10
    ∧ payload_max_tokens p = 1000%Z.
Proof.
  destruct (completion_request_shape sample_client sample_world
              [Turn "user" (JStr "hello")] (Some "m9") initial_state) as [_ Hexplicit].
  destruct (Hexplicit _ _ eq_refl) as (q & p & Hi & Hm & _ & Hb & Hp & Hms & Ht & Hx).
  exists q, p. repeat split; assumption.
Defined.

Lemma chat_persists_failure_witness :
  let st' := exec (ChatCommand.handle pinned_chat unreachable_world
                     (inbound_message "hello")) initial_state in
  truthy (text (ctx_message (inbound_message "hello"))) = true
  ∧ ∃ older response,
      history "+100" st'
      = older ++ [Turn "user" (JStr "hello"); Turn "assistant" response]
      ∧ sent st' = [("+100", response)]
      ∧ response = JStr ("Sorry, I couldn't process your request: "
                         +:+ "Cannot connect to host localhost:8080").
Proof.
  cbv zeta. split; [reflexivity|].
  destruct (chat_persists_failure pinned_chat unreachable_world (inbound_message "hello")
              initial_state eq_refl) as (older & response & _ & Hh & _ & Hs & _ & Hm).
  exists older, response. split; [exact Hh|]. split; [exact Hs|].
  destruct (Hm (JStr "m1") eq_refl) as [Hraise _].
  exact (Hraise _ eq_refl).
Defined.


Lemma universal_ignores_empty_witness :
  ∃ registered,
    main sample_env = Some registered
    ∧ truthy (text (ctx_message empty_message)) = false
    ∧ sent (exec (dispatch registered sample_world empty_message) initial_state)
      = sent initial_state
    ∧ conversations (exec (dispatch registered sample_world empty_message) initial_state)
      = conversations initial_state.
Proof.
  eexists. split; [reflexivity|]. split; [reflexivity|].
  destruct (universal_ignores_empty sample_env _ sample_world empty_message
              initial_state eq_refl eq_refl) as (_ & Hs & Hc & _).
  split; [exact Hs | exact Hc].
Defined.

Lemma every_text_goes_to_chat_witness :
  ∃ registered chat,
    main sample_env = Some registered
    ∧ truthy (text (ctx_message (inbound_message "models"))) = true
    ∧ dispatch registered sample_world (inbound_message "models") initial_state
      = ChatCommand.handle chat sample_world (inbound_message "models")
          (add_logged (INFO, "UniversalChatHandler.handle called with message: models")
             initial_state).
Proof.
  destruct (every_text_goes_to_chat sample_env _ sample_world (inbound_message "models")
              initial_state eq_refl eq_refl) as (chat & _ & Hd).
  eexists _, chat. split; [reflexivity|]. split; [reflexivity|]. exact Hd.
Defined.

Lemma concurrent_chats_keep_all_turns_witness :
  let c1 := inbound_message "first" in
  let c2 := inbound_message "second" in
  let sched := [Begin c1; Begin c2; Deliver c1 (JStr "one"); Deliver c2 (JStr "two")] in
  let before := history "+100" chatted_state in
  let after := history "+100" (run_schedule sample_chat sched chatted_state) in
  (source (ctx_message c2) = source (ctx_message c1)
   ∧ truthy (text (ctx_message c1)) = true
   ∧ truthy (text (ctx_message c2)) = true
   ∧ sched ∈ schedules c1 c2 (JStr "one") (JStr "two"))
  ∧ before = [Turn "user" (JStr "hello"); Turn "assistant" (JStr "hi there")]
  ∧ (∃ older, older `suffix_of` before ∧ after = older ++ map turn_of_event sched)
  ∧ length after = length before + 4.
Proof.
  cbv zeta.
  assert ([Begin (inbound_message "first"); Begin (inbound_message "second");
           Deliver (inbound_message "first") (JStr "one");
           Deliver (inbound_message "second") (JStr "two")]
          ∈ schedules (inbound_message "first") (inbound_message "second")
              (JStr "one") (JStr "two")) as Hin.
  { unfold schedules. cbn. apply list_elem_of_further, list_elem_of_here. }
  split; [repeat split; try reflexivity; exact Hin|].
  split; [vm_compute; reflexivity|].
  destruct (concurrent_chats_keep_all_turns sample_chat (inbound_message "first")
              (inbound_message "second") (JStr "one") (JStr "two") chatted_state _
              eq_refl eq_refl eq_refl Hin) as (Holder & _ & Hlen).
  split; [exact Holder|].
  apply Hlen. vm_compute. lia.
Defined.

Lemma list_models_all_or_nothing_witness :
  (partial_listing_world (PrivateModeClient.models_request sample_client)
   = Ret (Response 200
            (Ret (JObj [("data", JArr [JObj [("id", JStr "m1")];
                                       JObj [("name", JStr "m2")]])]))
            (Ret ""))
   ∧ JObj [("name", JStr "m2")] ∈ [JObj [("id", JStr "m1")]; JObj [("name", JStr "m2")]]
   ∧ ∀ i, py_getitem_str (JObj [("name", JStr "m2")]) "id" ≠ Ret i)
  ∧ result (PrivateModeClient.list_models sample_client partial_listing_world)
      initial_state = Ret [].
Proof.
  assert (JObj [("name", JStr "m2")]
          ∈ [JObj [("id", JStr "m1")]; JObj [("name", JStr "m2")]]) as Hin.
  { apply list_elem_of_further, list_elem_of_here. }
  assert (∀ i, py_getitem_str (JObj [("name", JStr "m2")]) "id" ≠ Ret i) as Hno.
  { intros i. cbn. discriminate. }
  split; [split; [reflexivity|split; [exact Hin|exact Hno]]|].
  destruct (list_models_all_or_nothing sample_client partial_listing_world initial_state
              _ _ _ eq_refl eq_refl eq_refl eq_refl) as [_ Hnone].
  exact (Hnone _ Hin Hno).
Defined.

Lemma clear_then_chat_starts_afresh_witness :
  let st1 := exec (ClearCommand.handle sample_clear sample_world (inbound_message "clear"))
               chatted_state in
  let st2 := exec (ChatCommand.handle sample_chat sample_world (inbound_message "again"))
               st1 in
  (ClearCommand.chat_command sample_clear = sample_chat
   ∧ source (ctx_message (inbound_message "clear"))
     = source (ctx_message (inbound_message "again"))
   ∧ truthy (text (ctx_message (inbound_message "again"))) = true)
  ∧ history "+100" chatted_state
    = [Turn "user" (JStr "hello"); Turn "assistant" (JStr "hi there")]
  ∧ ∃ response,
      history "+100" st2 = [Turn "user" (JStr "again"); Turn "assistant" response].
Proof.
  cbv zeta. split; [repeat split; reflexivity|].
  split; [vm_compute; reflexivity|].
  destruct (clear_then_chat_starts_afresh sample_clear sample_chat sample_world
              sample_world (inbound_message "clear") (inbound_message "again")
              chatted_state eq_refl eq_refl eq_refl) as (response & _ & Hh & _).
  exists response. exact Hh.
Defined.

Lemma bot_replies_once_iff_text_witness :
  ∃ registered,
    main sample_env = Some registered
    ∧ result (dispatch registered unreachable_world (inbound_message "hello"))
        initial_state = Ret tt
    ∧ ∃ reply,
        sent (exec (dispatch registered unreachable_world (inbound_message "hello"))
                initial_state)
        = sent initial_state ++ [("+100", reply)].
Proof.
  eexists. split; [reflexivity|].
  exact (bot_replies_once_iff_text sample_env _ unreachable_world (inbound_message "hello")
           initial_state eq_refl).
Defined.

Lemma chat_request_context_witness :
  let c := inbound_message "again" in
  let user := Turn "user" (JStr "again") in
  let p := Payload (JStr "m1")
             [Turn "user" (JStr "hello"); Turn "assistant" (JStr "hi there"); user]
             (QArith_base.Qmake 7 10) 1000 in
  let q := Request POST "http://localhost:8080/v1/chat/completions"
             [("Content-Type", "application/json")] (Some p) in
  (truthy (text (ctx_message c)) = true
   ∧ q ∈ issued (ChatCommand.handle sample_chat sample_world c) chatted_state
   ∧ body q = Some p)
  ∧ history "+100" chatted_state
    = [Turn "user" (JStr "hello"); Turn "assistant" (JStr "hi there")]
  ∧ payload_messages p = last_n 9 (history "+100" chatted_state) ++ [user]
  ∧ last (payload_messages p) = Some user.
Proof.
  cbv zeta.
  set (p := Payload _ _ _ _). set (q := Request _ _ _ _).
  assert (q ∈ issued (ChatCommand.handle sample_chat sample_world (inbound_message "again"))
                chatted_state) as Hq.
  { vm_compute. apply list_elem_of_further, list_elem_of_here. }
  split; [split; [reflexivity|split; [exact Hq|reflexivity]]|].
  split; [vm_compute; reflexivity|].
  exact (chat_request_context sample_chat sample_world (inbound_message "again")
           chatted_state q p eq_refl Hq eq_refl).
Defined.

Lemma clear_while_awaiting_witness :
  let c := inbound_message "hello" in
  let st1 := exec (handle_until_await sample_chat c) initial_state in
  let st2 := exec (ClearCommand.handle sample_clear sample_world (inbound_message "clear"))
               st1 in
  (ClearCommand.chat_command sample_clear = sample_chat
   ∧ truthy (text (ctx_message c)) = true
   ∧ source (ctx_message (inbound_message "clear")) = source (ctx_message c))
  ∧ result (handle_resume c (JStr "hi there")) st2 = Raise (KeyError (JStr "+100")).
Proof.
  cbv zeta. split; [repeat split; reflexivity|].
  destruct (clear_while_awaiting sample_chat sample_clear sample_world
              (inbound_message "hello") (inbound_message "clear") (JStr "hi there")
              initial_state eq_refl eq_refl eq_refl) as [_ Hr].
  unfold result. rewrite Hr. reflexivity.
Defined.
